(** * The R2 mount reconciler of the gateway (src/gateway/r2.ts)

    A shallow embedding of [isR2Accessible] and [mountR2Storage].  The
    sandbox runtime is an external collaborator: it is modelled as an
    oracle (a record of answers), and a run of an async function is the
    pair of its outcome (resolved with a value, or rejected with a thrown
    value) and the chronological list of the external calls it made
    (console output, sandbox calls, timer sleeps). *)

From Stdlib Require Import String Ascii List Bool Arith Lia.
From Equations Require Import Equations.
Import ListNotations.
Local Open Scope string_scope.
Local Open Scope list_scope.

(** ** The JavaScript fragment the file relies on *)

Module Js.

(** Truthiness of an optional string property: [undefined] and the empty
    string are falsy, every other string is truthy. *)
Definition truthy (v : option string) : bool :=
  match v with
  | Some s => negb (s =? EmptyString)%string
  | None => false
  end.

(** Interpolation [${v}] inside a template literal. *)
Definition interpolate (v : option string) : string :=
  match v with
  | Some s => s
  | None => "undefined"
  end.

(** [s.includes(t)]: [t] occurs in [s] at some position. *)
Fixpoint includes (s t : string) : bool :=
  if prefix t s then true
  else match s with
       | EmptyString => false
       | String _ s' => includes s' t
       end.

(** The one-character string holding a double quote. *)
Definition dquote : string := String (ascii_of_nat 34) EmptyString.

(** Strings here are sequences of bytes, JavaScript strings are sequences
    of UTF-16 code units.  On a string of ASCII characters the two agree
    unit for unit; [isAscii] tells such strings. *)
Fixpoint isAscii (s : string) : bool :=
  match s with
  | EmptyString => true
  | String (Ascii _ _ _ _ _ _ _ high) s' => negb high && isAscii s'
  end.

(** [s.slice(0, n)], for a string of ASCII characters: on other strings
    JavaScript counts UTF-16 code units where [substring] counts bytes. *)
Definition slice0 (n : nat) (s : string) : string := substring 0 n s.

(** A thrown value.  JavaScript can throw anything; four shapes are told
    apart, by what line 61 of r2.ts makes of them:
    - an [Error] instance whose [message] is a string;
    - an [Error] instance whose [message] is [undefined];
    - any other value that [String(err)] can render, kept as the string it
      renders to;
    - a value [String(err)] cannot render (such as [Object.create(null)],
      which has neither [toString] nor [valueOf]). *)
Inductive Thrown : Type :=
| ErrorObj (message : string) (stack : option string)
| NonError (rendered : string)
| ErrorNoMessage (stack : option string)
| Unrenderable.

(** [err instanceof Error]. *)
Definition instanceofError (err : Thrown) : bool :=
  match err with
  | ErrorObj _ _ | ErrorNoMessage _ => true
  | NonError _ | Unrenderable => false
  end.

(** [err.stack] (undefined on a value that is not an object with a stack). *)
Definition stackOf (err : Thrown) : option string :=
  match err with
  | ErrorObj _ st | ErrorNoMessage st => st
  | NonError _ | Unrenderable => None
  end.

(** The [TypeError] the engine throws, by its message (its stack, which
    nothing here reads, is left out). *)
Definition TypeError (message : string) : Thrown := ErrorObj message None.

End Js.
Import Js.

(** ** Environment, sandbox and observable events *)

(** The fields of [MoltbotEnv] that r2.ts and the bucket-name resolution
    read; each is an optional string property. *)
Record MoltbotEnv : Type := mkEnv {
  R2_ACCESS_KEY_ID : option string;
  R2_SECRET_ACCESS_KEY : option string;
  CF_ACCOUNT_ID : option string;
  R2_BUCKET_NAME : option string
}.

(** What the module imports from [../config]. *)
Record ConfigModule : Type := mkConfig {
  R2_MOUNT_PATH : string;
  getR2BucketName : MoltbotEnv -> string
}.

Record Credentials : Type := mkCredentials {
  accessKeyId : option string;
  secretAccessKey : option string
}.

(** The third argument of [sandbox.mountBucket]. *)
Record MountOptions : Type := mkMountOptions {
  endpoint : string;
  credentials : Credentials
}.

Inductive Outcome (A : Type) : Type :=
| Resolved (value : A)
| Rejected (err : Thrown).
Arguments Resolved {A} value.
Arguments Rejected {A} err.

(** [v.includes(t)] on a value that is a string or [undefined]: reading a
    property of [undefined] throws. *)
Definition includesOf (v : option string) (t : string) : Outcome bool :=
  match v with
  | Some s => Resolved (includes s t)
  | None =>
      Rejected (TypeError "Cannot read properties of undefined (reading 'includes')")
  end.

(** The object [proc.getLogs()] resolves to. *)
Record Logs : Type := mkLogs {
  stdout : option string;
  stderr : option string
}.

(** A process handle.  [status k] is the value of the property
    [proc.status] at its [k]-th read (counted from 0); [getLogs] is the
    settlement of [proc.getLogs()]. *)
Record Process : Type := mkProcess {
  status : nat -> string;
  getLogs : Outcome Logs
}.

(** The sandbox collaborator: how each of its calls settles. *)
Record Sandbox : Type := mkSandbox {
  mountBucket : string -> string -> MountOptions -> Outcome unit;
  startProcess : string -> Outcome Process
}.

Inductive Level : Type := LvLog | LvWarn | LvError.

(** Arguments given to the console. *)
Inductive Arg : Type :=
| AStr (s : string)
| ABool (b : bool)
| AUndefined
| AThrown (err : Thrown)
| ADetails (bucket mountPath endpoint : string).

Inductive Event : Type :=
| EvConsole (lvl : Level) (args : list Arg)
| EvMountBucket (bucketName mountPath : string) (options : MountOptions)
| EvStartProcess (command : string)
| EvGetLogs
| EvSleep (ms : nat).

(** ** Async computations: an outcome and the events of the run *)

Definition Async (A : Type) : Type := (Outcome A * list Event)%type.

Definition ret {A} (a : A) : Async A := (Resolved a, []).

Definition bind {A B} (m : Async A) (k : A -> Async B) : Async B :=
  match m with
  | (Resolved a, t) => let (o, t') := k a in (o, t ++ t')
  | (Rejected e, t) => (Rejected e, t)
  end.

(** [try { body } catch (err) { handler }]. *)
Definition try_catch {A} (body : Async A) (handler : Thrown -> Async A)
  : Async A :=
  match body with
  | (Resolved a, t) => (Resolved a, t)
  | (Rejected e, t) => let (o, t') := handler e in (o, t ++ t')
  end.

(** An external call: it is recorded, and settles as the collaborator says. *)
Definition call {A} (ev : Event) (settles : Outcome A) : Async A :=
  (settles, [ev]).

Definition console (lvl : Level) (args : list Arg) : Async unit :=
  call (EvConsole lvl args) (Resolved tt).

(** [await new Promise(r => setTimeout(r, ms))]. *)
Definition sleep (ms : nat) : Async unit := call (EvSleep ms) (Resolved tt).

(** A value computed without any external call: it settles at once. *)
Definition settle {A} (o : Outcome A) : Async A := (o, []).

(** An optional string handed to the console as it is. *)
Definition argOf (v : option string) : Arg :=
  match v with
  | Some s => AStr s
  | None => AUndefined
  end.

(** Keeps the equation of a case analysis in scope. *)
Definition inspect {A : Type} (x : A) : {y : A | x = y} := exist _ x eq_refl.

Notation "x <- m ;; k" := (bind m (fun x => k))
  (at level 61, m at next level, right associativity).
Notation "m ;; k" := (bind m (fun _ => k))
  (at level 61, right associativity).
Notation "'try' b 'catch' h" := (try_catch b h)
  (at level 62, b at level 61, h at level 61).

(** ** src/gateway/r2.ts *)

Section Gateway.

Variable cfg : ConfigModule.

(** The command of r2.ts line 15. *)
Definition probeCommand : string :=
  "test -d " ++ R2_MOUNT_PATH cfg ++ " && touch " ++ R2_MOUNT_PATH cfg
  ++ "/.mount-check && rm -f " ++ R2_MOUNT_PATH cfg
  ++ "/.mount-check && echo " ++ dquote ++ "accessible" ++ dquote.

(** The loop of lines 17-21:
    [while (proc.status === 'running' && attempts < 10) { sleep; attempts++ }].
    Each test of the condition reads [proc.status] once, so the read made
    when the counter holds [attempts] is read number [attempts]. *)
Equations? poll (proc : Process) (attempts : nat) : Async unit
  by wf (10 - attempts) lt :=
  poll proc attempts
    with inspect ((status proc attempts =? "running")%string
                  && (attempts <? 10)%nat) := {
    | exist _ true _ => sleep 200 ;; poll proc (S attempts)
    | exist _ false _ => ret tt }.
Proof.
  apply andb_prop in e. destruct e as [_ Hlt].
  apply Nat.ltb_lt in Hlt. clear poll.
  do 10 (destruct attempts as [|attempts]; [lia|]). lia.
Qed.

(** [!!(logs.stdout && logs.stdout.includes('accessible'))]. *)
Definition accessibleFlag (logs : Logs) : bool :=
  match stdout logs with
  | Some s => if truthy (Some s) then includes s "accessible" else false
  | None => false
  end.

(** [logs.stdout?.slice(0, 100)]. *)
Definition stdoutHead (logs : Logs) : Arg :=
  argOf (option_map (slice0 100) (stdout logs)).

(** The [try] block of [isR2Accessible], lines 14-25. *)
Definition isR2Accessible_body (sandbox : Sandbox) : Async bool :=
  proc <- call (EvStartProcess probeCommand)
               (startProcess sandbox probeCommand) ;;
  poll proc 0 ;;
  logs <- call EvGetLogs (getLogs proc) ;;
  let accessible := accessibleFlag logs in
  console LvLog [AStr "isR2Accessible check:"; ABool accessible;
                 AStr "stdout:"; stdoutHead logs] ;;
  ret accessible.

Definition isR2Accessible (sandbox : Sandbox) : Async bool :=
  try isR2Accessible_body sandbox
  catch (fun err =>
    console LvLog [AStr "isR2Accessible error:"; AThrown err] ;;
    ret false).

(** Line 61, [err instanceof Error ? err.message : String(err)]: a string,
    [undefined] (read from an [Error] without a message), or the exception
    [String(err)] raises. *)
Definition errorMessageOf (err : Thrown) : Outcome (option string) :=
  match err with
  | ErrorObj message _ => Resolved (Some message)
  | ErrorNoMessage _ => Resolved None
  | NonError rendered => Resolved (Some rendered)
  | Unrenderable =>
      Rejected (TypeError "Cannot convert object to primitive value")
  end.

(** Lines 61 and 66 together: the value of
    [errorMessage.includes('already in use')], or what evaluating it throws. *)
Definition conflictTest (err : Thrown) : Outcome bool :=
  match errorMessageOf err with
  | Resolved errorMessage => includesOf errorMessage "already in use"
  | Rejected e => Rejected e
  end.

(** The guard of line 41. *)
Definition notConfigured (env : MoltbotEnv) : bool :=
  negb (truthy (R2_ACCESS_KEY_ID env))
  || negb (truthy (R2_SECRET_ACCESS_KEY env))
  || negb (truthy (CF_ACCOUNT_ID env)).

(** Line 47. *)
Definition endpointOf (env : MoltbotEnv) : string :=
  "https://" ++ interpolate (CF_ACCOUNT_ID env) ++ ".r2.cloudflarestorage.com".

(** The object literal of lines 51-57. *)
Definition mountOptionsOf (env : MoltbotEnv) : MountOptions :=
  {| endpoint := endpointOf env;
     credentials := {| accessKeyId := R2_ACCESS_KEY_ID env;
                       secretAccessKey := R2_SECRET_ACCESS_KEY env |} |}.

(** The [catch] block of [mountR2Storage], lines 60-92. *)
Definition mountR2Storage_handler (sandbox : Sandbox) (bucketName : string)
    (endpoint : string) (err : Thrown) : Async bool :=
  errorMessage <- settle (errorMessageOf err) ;;
  conflict <- settle (includesOf errorMessage "already in use") ;;
  if conflict then
    console LvLog [AStr "R2 bucket already mounted at";
                   AStr (R2_MOUNT_PATH cfg);
                   AStr "(confirmed by Sandbox API)"] ;;
    ok <- isR2Accessible sandbox ;;
    if ok then
      console LvLog [AStr "R2 mount verified - storage is accessible"] ;;
      ret true
    else
      console LvWarn [AStr "R2 mount registered but filesystem check failed - mount may be initializing"] ;;
      ret true
  else
    console LvError [AStr "R2 mount error:"; argOf errorMessage] ;;
    (if instanceofError err && truthy (stackOf err) then
       console LvError [AStr "R2 mount stack:";
                        argOf (stackOf err)]
     else ret tt) ;;
    console LvError [AStr "R2 mount details:";
                     ADetails bucketName (R2_MOUNT_PATH cfg) endpoint] ;;
    console LvError [AStr "Failed to mount R2 bucket:"; AThrown err] ;;
    ret false.

Definition mountR2Storage (sandbox : Sandbox) (env : MoltbotEnv)
  : Async bool :=
  if notConfigured env then
    console LvLog [AStr "R2 storage not configured (missing R2_ACCESS_KEY_ID, R2_SECRET_ACCESS_KEY, or CF_ACCOUNT_ID)"] ;;
    ret false
  else
    let bucketName := getR2BucketName cfg env in
    let endpoint := endpointOf env in
    try
      (console LvLog [AStr "Mounting R2 bucket"; AStr bucketName; AStr "at";
                      AStr (R2_MOUNT_PATH cfg); AStr "endpoint:";
                      AStr endpoint] ;;
       call (EvMountBucket bucketName (R2_MOUNT_PATH cfg) (mountOptionsOf env))
            (mountBucket sandbox bucketName (R2_MOUNT_PATH cfg)
                         (mountOptionsOf env)) ;;
       console LvLog [AStr "R2 bucket mounted successfully - moltbot data will persist across sessions"] ;;
       ret true)
    catch (mountR2Storage_handler sandbox bucketName endpoint).

End Gateway.

(** ** The configuration module *)

(** Modelled from the spec: the module [../config] is not among the
    sources.  The spec describes its two exports as the fixed mount path
    and the bucket-name resolution (env override or default); the literal
    values are the ones r2.test.ts expects. *)
Definition config : ConfigModule :=
  {| R2_MOUNT_PATH := "/data/moltbot";
     getR2BucketName := fun env =>
       match R2_BUCKET_NAME env with
       | Some name => name
       | None => "moltbot-data"
       end |}.

(** ** The mock collaborators of test-utils.ts *)

Definition createMockEnv : MoltbotEnv :=
  {| R2_ACCESS_KEY_ID := None; R2_SECRET_ACCESS_KEY := None;
     CF_ACCOUNT_ID := None; R2_BUCKET_NAME := None |}.

Definition createMockEnvWithR2 : MoltbotEnv :=
  {| R2_ACCESS_KEY_ID := Some "test-key-id";
     R2_SECRET_ACCESS_KEY := Some "test-secret-key";
     CF_ACCOUNT_ID := Some "test-account-id";
     R2_BUCKET_NAME := None |}.

Definition createMockProcess (out : string) (st : string) : Process :=
  {| status := fun _ => st;
     getLogs := Resolved {| stdout := Some out; stderr := Some EmptyString |} |}.

Definition alreadyInUseError : Thrown :=
  ErrorObj
    ("InvalidMountConfigError: Mount path " ++ dquote ++ "/data/moltbot"
     ++ dquote ++ " is already in use by bucket " ++ dquote ++ "moltbot-data"
     ++ dquote
     ++ ". Unmount the existing bucket first or use a different mount path.")
    None.

Definition createMockSandbox (mounted : bool) : Sandbox :=
  {| mountBucket := fun _ _ _ =>
       if mounted then Rejected alreadyInUseError else Resolved tt;
     startProcess := fun _ =>
       Resolved (createMockProcess
                   (if mounted then "accessible" else EmptyString)
                   "completed") |}.

Definition mockSandbox (mount : Outcome unit) (start : Outcome Process)
  : Sandbox :=
  {| mountBucket := fun _ _ _ => mount; startProcess := fun _ => start |}.

(** The environments and sandboxes of r2.test.ts. *)
Definition envKey123 : MoltbotEnv :=
  {| R2_ACCESS_KEY_ID := Some "key123";
     R2_SECRET_ACCESS_KEY := Some "secret";
     CF_ACCOUNT_ID := Some "account123";
     R2_BUCKET_NAME := None |}.

Definition envCustomBucket : MoltbotEnv :=
  {| R2_ACCESS_KEY_ID := Some "key123";
     R2_SECRET_ACCESS_KEY := Some "secret";
     CF_ACCOUNT_ID := Some "account123";
     R2_BUCKET_NAME := Some "moltbot-e2e-test123" |}.

Definition envMissingAccount : MoltbotEnv :=
  {| R2_ACCESS_KEY_ID := Some "key123";
     R2_SECRET_ACCESS_KEY := Some "secret";
     CF_ACCOUNT_ID := None;
     R2_BUCKET_NAME := None |}.

Definition envEmptySecret : MoltbotEnv :=
  {| R2_ACCESS_KEY_ID := Some "key123";
     R2_SECRET_ACCESS_KEY := Some EmptyString;
     CF_ACCOUNT_ID := Some "account123";
     R2_BUCKET_NAME := None |}.

Definition conflictSandbox (out : string) : Sandbox :=
  mockSandbox (Rejected alreadyInUseError)
              (Resolved (createMockProcess out "completed")).

Definition networkTimeoutSandbox : Sandbox :=
  mockSandbox (Rejected (ErrorObj "Network timeout" None))
              (Resolved (createMockProcess EmptyString "completed")).

(** A process that never leaves the "running" status. *)
Definition stuckProcess : Process := createMockProcess "accessible" "running".

Definition stuckSandbox : Sandbox :=
  mockSandbox (Resolved tt) (Resolved stuckProcess).

Definition startFailsSandbox : Sandbox :=
  mockSandbox (Resolved tt) (Rejected (ErrorObj "sandbox unavailable" None)).

Definition logsFailProcess : Process :=
  {| status := fun _ => "completed";
     getLogs := Rejected (NonError "stream closed") |}.

Definition logsFailSandbox : Sandbox :=
  mockSandbox (Resolved tt) (Resolved logsFailProcess).

(** A sandbox whose [mountBucket] rejects with [Object.create(null)]. *)
Definition unrenderableSandbox : Sandbox :=
  mockSandbox (Rejected Unrenderable)
              (Resolved (createMockProcess "accessible" "completed")).

(** A sandbox whose [mountBucket] rejects with an [Error] whose message was
    set to [undefined]. *)
Definition noMessageSandbox : Sandbox :=
  mockSandbox (Rejected (ErrorNoMessage None))
              (Resolved (createMockProcess "accessible" "completed")).

(** A captured output of 150 ASCII characters. *)
Definition longOutput : string :=
  ("accessible" ++ String.concat EmptyString (repeat "0123456789" 14))%string.

Definition longOutputLogs : Logs :=
  {| stdout := Some longOutput; stderr := Some EmptyString |}.

Definition longOutputProcess : Process :=
  {| status := fun _ => "completed"; getLogs := Resolved longOutputLogs |}.

Definition longOutputSandbox : Sandbox :=
  mockSandbox (Resolved tt) (Resolved longOutputProcess).

(** ** What a run shows *)

(** The [mountBucket] calls of a run, in order, with their arguments. *)
Fixpoint mountCalls (t : list Event) : list (string * string * MountOptions) :=
  match t with
  | [] => []
  | EvMountBucket b p o :: t' => (b, p, o) :: mountCalls t'
  | _ :: t' => mountCalls t'
  end.

(** How the sandbox settled each [mountBucket] call of a run. *)
Definition mountSettlements (sandbox : Sandbox) (t : list Event)
  : list (Outcome unit) :=
  map (fun c => mountBucket sandbox (fst (fst c)) (snd (fst c)) (snd c))
      (mountCalls t).

(** The commands handed to [startProcess] in a run, in order. *)
Definition startCalls (t : list Event) : list string :=
  flat_map (fun ev => match ev with
                      | EvStartProcess c => [c]
                      | _ => []
                      end) t.

(** One entry for each [getLogs] call of a run. *)
Definition logReads (t : list Event) : list unit :=
  flat_map (fun ev => match ev with
                      | EvGetLogs => [tt]
                      | _ => []
                      end) t.

(** The durations of the sleeps of a run, in milliseconds. *)
Definition sleeps (t : list Event) : list nat :=
  flat_map (fun ev => match ev with
                      | EvSleep ms => [ms]
                      | _ => []
                      end) t.

Definition Level_eqb (a b : Level) : bool :=
  match a, b with
  | LvLog, LvLog | LvWarn, LvWarn | LvError, LvError => true
  | _, _ => false
  end.

(** What a run printed at a given console level. *)
Definition consoleLines (lvl : Level) (t : list Event) : list (list Arg) :=
  flat_map (fun ev => match ev with
                      | EvConsole l args =>
                          if Level_eqb l lvl then [args] else []
                      | _ => []
                      end) t.

(** ** The environment builders of test-utils.ts, with their overrides *)

(** A [Partial<MoltbotEnv>], restricted to the string fields: for each key,
    [None] when the object does not have it, [Some v] when it has it with
    value [v] (which may itself be [undefined]). *)
Record EnvOverrides : Type := mkOverrides {
  ov_R2_ACCESS_KEY_ID : option (option string);
  ov_R2_SECRET_ACCESS_KEY : option (option string);
  ov_CF_ACCOUNT_ID : option (option string);
  ov_R2_BUCKET_NAME : option (option string)
}.

(** The empty object, default value of [overrides]. *)
Definition noOverrides : EnvOverrides :=
  {| ov_R2_ACCESS_KEY_ID := None; ov_R2_SECRET_ACCESS_KEY := None;
     ov_CF_ACCOUNT_ID := None; ov_R2_BUCKET_NAME := None |}.

(** One key of [{ ...a, ...b }]: a key of [b] wins, even when its value is
    [undefined]. *)
Definition spreadKey {A} (a b : option A) : option A :=
  match b with
  | Some v => Some v
  | None => a
  end.

(** [{ ...a, ...b }]. *)
Definition spread (a b : EnvOverrides) : EnvOverrides :=
  {| ov_R2_ACCESS_KEY_ID :=
       spreadKey (ov_R2_ACCESS_KEY_ID a) (ov_R2_ACCESS_KEY_ID b);
     ov_R2_SECRET_ACCESS_KEY :=
       spreadKey (ov_R2_SECRET_ACCESS_KEY a) (ov_R2_SECRET_ACCESS_KEY b);
     ov_CF_ACCOUNT_ID := spreadKey (ov_CF_ACCOUNT_ID a) (ov_CF_ACCOUNT_ID b);
     ov_R2_BUCKET_NAME :=
       spreadKey (ov_R2_BUCKET_NAME a) (ov_R2_BUCKET_NAME b) |}.

(** Reading a property: an absent key reads as [undefined]. *)
Definition readKey (k : option (option string)) : option string :=
  match k with
  | Some v => v
  | None => None
  end.

(** [createMockEnv(overrides)], test-utils.ts lines 11-18: the three
    bindings [Sandbox], [ASSETS] and [MOLTBOT_BUCKET] hold no string field,
    so the string fields of the result are those of [overrides]. *)
Definition createMockEnv' (overrides : EnvOverrides) : MoltbotEnv :=
  {| R2_ACCESS_KEY_ID := readKey (ov_R2_ACCESS_KEY_ID overrides);
     R2_SECRET_ACCESS_KEY := readKey (ov_R2_SECRET_ACCESS_KEY overrides);
     CF_ACCOUNT_ID := readKey (ov_CF_ACCOUNT_ID overrides);
     R2_BUCKET_NAME := readKey (ov_R2_BUCKET_NAME overrides) |}.

(** [createMockEnvWithR2(overrides)], test-utils.ts lines 23-30. *)
Definition createMockEnvWithR2' (overrides : EnvOverrides) : MoltbotEnv :=
  createMockEnv'
    (spread {| ov_R2_ACCESS_KEY_ID := Some (Some "test-key-id");
               ov_R2_SECRET_ACCESS_KEY := Some (Some "test-secret-key");
               ov_CF_ACCOUNT_ID := Some (Some "test-account-id");
               ov_R2_BUCKET_NAME := None |}
            overrides).

(** * Properties *)

(** ** Strings *)

Lemma prefix_app (t s : string) :
  prefix t s = true <-> exists post, s = (t ++ post)%string.
Proof.
  revert s. induction t as [|c t IH]; intros s.
  - split; [intros _; exists s; reflexivity | now destruct s].
  - destruct s as [|d s]; simpl.
    + split; [discriminate | intros [post H]; discriminate].
    + destruct (ascii_dec c d) as [->|Hcd].
      * rewrite IH. split; intros [post H]; exists post.
        -- now rewrite H.
        -- now inversion H.
      * split; [discriminate|].
        intros [post H]. inversion H. congruence.
Qed.

Lemma includes_unfold (s t : string) :
  includes s t =
  if prefix t s then true
  else match s with
       | EmptyString => false
       | String _ s' => includes s' t
       end.
Proof. destruct s; reflexivity. Qed.

(** [includes] is the substring test. *)
Lemma includes_spec (s t : string) :
  includes s t = true <-> exists pre post, s = (pre ++ t ++ post)%string.
Proof.
  induction s as [|c s IH]; rewrite includes_unfold.
  - destruct (prefix t EmptyString) eqn:Hp.
    + split; [intros _|reflexivity].
      apply prefix_app in Hp. destruct Hp as [post Hp].
      exists EmptyString, post. exact Hp.
    + split; [discriminate|].
      intros [pre [post H]].
      destruct pre; [|discriminate]. simpl in H.
      assert (prefix t EmptyString = true) by (apply prefix_app; eauto).
      congruence.
  - destruct (prefix t (String c s)) eqn:Hp.
    + split; [intros _|reflexivity].
      apply prefix_app in Hp. destruct Hp as [post Hp].
      exists EmptyString, post. exact Hp.
    + rewrite IH. split.
      * intros [pre [post H]]. exists (String c pre), post.
        simpl. now rewrite H.
      * intros [pre [post H]]. destruct pre as [|d pre].
        -- simpl in H.
           assert (prefix t (String c s) = true) by (apply prefix_app; eauto).
           congruence.
        -- simpl in H. inversion H. eauto.
Qed.

(** ** The monad *)

Lemma bind_resolved {A B} (m : Async A) (k : A -> Async B) a t :
  m = (Resolved a, t) -> bind m k = (fst (k a), t ++ snd (k a)).
Proof. intros ->. simpl. now destruct (k a). Qed.

Lemma bind_rejected {A B} (m : Async A) (k : A -> Async B) e t :
  m = (Rejected e, t) -> bind m k = (Rejected e, t).
Proof. now intros ->. Qed.

Lemma try_resolved {A} (m : Async A) h a t :
  m = (Resolved a, t) -> try_catch m h = (Resolved a, t).
Proof. now intros ->. Qed.

Lemma try_rejected {A} (m : Async A) h e t :
  m = (Rejected e, t) -> try_catch m h = (fst (h e), t ++ snd (h e)).
Proof. intros ->. simpl. now destruct (h e). Qed.

Lemma mountCalls_app (t u : list Event) :
  mountCalls (t ++ u) = mountCalls t ++ mountCalls u.
Proof.
  induction t as [|ev t IH]; simpl; [reflexivity|].
  destruct ev; simpl; now rewrite ?IH.
Qed.

Lemma mountCalls_sleeps n ms : mountCalls (repeat (EvSleep ms) n) = [].
Proof. induction n; simpl; auto. Qed.

(** ** The poll loop *)

Lemma poll_step (proc : Process) (attempts : nat) :
  poll proc attempts =
  if (status proc attempts =? "running")%string && (attempts <? 10)%nat
  then sleep 200 ;; poll proc (S attempts)
  else ret tt.
Proof.
  rewrite poll_equation_1. unfold poll_unfold_clause_1, inspect.
  destruct ((status proc attempts =? "running")%string && (attempts <? 10)%nat);
    reflexivity.
Qed.

(** From counter value [attempts] the loop sleeps [n] times, 200 ms each,
    where [n] is the number of consecutive reads of "running", cut off when
    the counter reaches 10. *)
Lemma poll_run (proc : Process) (attempts : nat) :
  exists n,
    attempts + n <= Nat.max attempts 10 /\
    (forall k, attempts <= k < attempts + n -> status proc k = "running") /\
    (attempts + n < 10 -> status proc (attempts + n) <> "running") /\
    poll proc attempts = (Resolved tt, repeat (EvSleep 200) n).
Proof.
  remember (10 - attempts) as fuel eqn:Hfuel.
  revert attempts Hfuel.
  induction fuel as [|fuel IH]; intros attempts Hfuel.
  - exists 0. rewrite Nat.add_0_r. repeat split; try lia.
    rewrite poll_step.
    replace (attempts <? 10)%nat with false
      by (symmetry; apply Nat.ltb_ge; lia).
    now rewrite andb_false_r.
  - destruct (status proc attempts =? "running")%string eqn:Hst.
    + destruct (IH (S attempts) ltac:(lia)) as (n & Hn & Hrun & Hstop & Heq).
      exists (S n). repeat split.
      * lia.
      * intros k Hk. destruct (Nat.eq_dec k attempts) as [->|Hne].
        -- now apply String.eqb_eq.
        -- apply Hrun. lia.
      * intros Hlt. replace (attempts + S n) with (S attempts + n) by lia.
        apply Hstop. lia.
      * rewrite poll_step, Hst.
        replace (attempts <? 10)%nat with true
          by (symmetry; apply Nat.ltb_lt; lia).
        simpl andb. cbv iota.
        rewrite (bind_resolved _ _ tt [EvSleep 200]) by reflexivity.
        now rewrite Heq.
    + exists 0. rewrite Nat.add_0_r. repeat split; try lia.
      * intros _. now apply String.eqb_neq.
      * rewrite poll_step, Hst. reflexivity.
Qed.

(** ** The accessibility probe *)

Section Probe.

Variable cfg : ConfigModule.
Variable sandbox : Sandbox.

(** The run of the [try] block, by how the sandbox settles its calls. *)
Lemma isR2Accessible_body_run :
  match startProcess sandbox (probeCommand cfg) with
  | Rejected e =>
      isR2Accessible_body cfg sandbox = (Rejected e, [EvStartProcess (probeCommand cfg)])
  | Resolved proc =>
      exists n,
        n <= 10 /\
        (forall k, k < n -> status proc k = "running") /\
        (n < 10 -> status proc n <> "running") /\
        isR2Accessible_body cfg sandbox =
        match getLogs proc with
        | Resolved logs =>
            (Resolved (accessibleFlag logs),
             EvStartProcess (probeCommand cfg) :: repeat (EvSleep 200) n ++
             [EvGetLogs;
              EvConsole LvLog [AStr "isR2Accessible check:";
                               ABool (accessibleFlag logs);
                               AStr "stdout:"; stdoutHead logs]])
        | Rejected e =>
            (Rejected e,
             EvStartProcess (probeCommand cfg) :: repeat (EvSleep 200) n ++ [EvGetLogs])
        end
  end.
Proof.
  unfold isR2Accessible_body. fold (probeCommand cfg).
  destruct (startProcess sandbox (probeCommand cfg)) as [proc|e]; [|reflexivity].
  destruct (poll_run proc 0) as (n & Hn & Hrun & Hstop & Heq).
  exists n. simpl in Hn, Hstop. repeat split.
  - lia.
  - intros k Hk. apply Hrun. lia.
  - exact Hstop.
  - rewrite (bind_resolved _ _ proc [EvStartProcess (probeCommand cfg)]) by reflexivity.
    rewrite (bind_resolved _ _ tt (repeat (EvSleep 200) n)) by exact Heq.
    destruct (getLogs proc) as [logs|e]; simpl.
    + reflexivity.
    + reflexivity.
Qed.

(** The run of the whole probe. *)
Lemma isR2Accessible_run :
  match startProcess sandbox (probeCommand cfg) with
  | Rejected e =>
      isR2Accessible cfg sandbox =
      (Resolved false,
       [EvStartProcess (probeCommand cfg);
        EvConsole LvLog [AStr "isR2Accessible error:"; AThrown e]])
  | Resolved proc =>
      exists n,
        n <= 10 /\
        (forall k, k < n -> status proc k = "running") /\
        (n < 10 -> status proc n <> "running") /\
        isR2Accessible cfg sandbox =
        match getLogs proc with
        | Resolved logs =>
            (Resolved (accessibleFlag logs),
             EvStartProcess (probeCommand cfg) :: repeat (EvSleep 200) n ++
             [EvGetLogs;
              EvConsole LvLog [AStr "isR2Accessible check:";
                               ABool (accessibleFlag logs);
                               AStr "stdout:"; stdoutHead logs]])
        | Rejected e =>
            (Resolved false,
             EvStartProcess (probeCommand cfg) :: repeat (EvSleep 200) n ++
             [EvGetLogs;
              EvConsole LvLog [AStr "isR2Accessible error:"; AThrown e]])
        end
  end.
Proof.
  pose proof isR2Accessible_body_run as Hbody. unfold isR2Accessible.
  destruct (startProcess sandbox (probeCommand cfg)) as [proc|e].
  - destruct Hbody as (n & Hn & Hrun & Hstop & Heq).
    exists n. repeat split; auto.
    rewrite Heq. destruct (getLogs proc) as [logs|e]; simpl.
    + reflexivity.
    + now rewrite <- app_assoc.
  - now rewrite Hbody.
Qed.

Lemma isR2Accessible_resolves :
  exists b, fst (isR2Accessible cfg sandbox) = Resolved b.
Proof.
  pose proof isR2Accessible_run as Hrun.
  destruct (startProcess sandbox (probeCommand cfg)) as [proc|e].
  - destruct Hrun as (n & _ & _ & _ & Heq). rewrite Heq.
    destruct (getLogs proc); simpl; eauto.
  - rewrite Hrun. simpl. eauto.
Qed.

Lemma isR2Accessible_mountCalls :
  mountCalls (snd (isR2Accessible cfg sandbox)) = [].
Proof.
  pose proof isR2Accessible_run as Hrun.
  destruct (startProcess sandbox (probeCommand cfg)) as [proc|e].
  - destruct Hrun as (n & _ & _ & _ & Heq). rewrite Heq.
    destruct (getLogs proc); simpl;
      now rewrite mountCalls_app, mountCalls_sleeps.
  - now rewrite Hrun.
Qed.

End Probe.

Lemma accessibleFlag_spec (logs : Logs) :
  accessibleFlag logs = true <->
  exists s, stdout logs = Some s /\ s <> EmptyString /\
            exists pre post, s = (pre ++ "accessible" ++ post)%string.
Proof.
  unfold accessibleFlag, truthy. destruct (stdout logs) as [s|].
  - destruct (s =? EmptyString)%string eqn:He; simpl.
    + apply String.eqb_eq in He. split; [discriminate|].
      intros (s' & Hs & Hne & _). inversion Hs. subst. now elim Hne.
    + apply String.eqb_neq in He. rewrite includes_spec. split.
      * intros H. exists s. auto.
      * intros (s' & Hs & _ & H). inversion Hs. now subst.
  - split; [discriminate|]. intros (s & Hs & _). discriminate.
Qed.

(** ** The mount reconciler *)

(** The test of line 66 yields a boolean exactly on a thrown value that
    line 61 turns into a string. *)
Lemma conflictTest_resolved (err : Thrown) (b : bool) :
  conflictTest err = Resolved b <->
  exists msg, errorMessageOf err = Resolved (Some msg) /\
              includes msg "already in use" = b.
Proof.
  unfold conflictTest. destruct (errorMessageOf err) as [[msg|]|e]; simpl.
  - split.
    + intros H. injection H as H. eauto.
    + intros (msg' & Hmsg & H). injection Hmsg as <-. now rewrite H.
  - split; [discriminate|]. intros (msg & H & _). discriminate.
  - split; [discriminate|]. intros (msg & H & _). discriminate.
Qed.

Section Reconciler.

Variable cfg : ConfigModule.
Variable sandbox : Sandbox.

Lemma mountR2Storage_handler_result bucketName endpoint err :
  fst (mountR2Storage_handler cfg sandbox bucketName endpoint err) =
  conflictTest err.
Proof.
  unfold mountR2Storage_handler, conflictTest, settle.
  destruct (errorMessageOf err) as [[msg|]|e]; try reflexivity.
  cbn [bind includesOf].
  destruct (includes msg "already in use").
  - destruct (isR2Accessible_resolves cfg sandbox) as [b Hb].
    destruct (isR2Accessible cfg sandbox) as [o t]. simpl in Hb. subst o.
    destruct b; reflexivity.
  - destruct (instanceofError err && truthy (stackOf err)); reflexivity.
Qed.

Lemma mountR2Storage_handler_mountCalls bucketName endpoint err :
  mountCalls (snd (mountR2Storage_handler cfg sandbox bucketName endpoint err))
  = [].
Proof.
  unfold mountR2Storage_handler, settle.
  destruct (errorMessageOf err) as [[msg|]|e]; try reflexivity.
  cbn [bind includesOf].
  destruct (includes msg "already in use").
  - pose proof (isR2Accessible_mountCalls cfg sandbox) as Hm.
    destruct (isR2Accessible_resolves cfg sandbox) as [b Hb].
    destruct (isR2Accessible cfg sandbox) as [o t]. simpl in Hb, Hm. subst o.
    destruct b; simpl; now rewrite mountCalls_app, Hm.
  - destruct (instanceofError err && truthy (stackOf err)); reflexivity.
Qed.

Variable env : MoltbotEnv.

(** The result of [mountR2Storage], by the guard and by how the sandbox
    settles the mount call. *)
Lemma mountR2Storage_result :
  fst (mountR2Storage cfg sandbox env) =
  if notConfigured env then Resolved false
  else match mountBucket sandbox (getR2BucketName cfg env)
                         (R2_MOUNT_PATH cfg) (mountOptionsOf env) with
       | Resolved _ => Resolved true
       | Rejected err => conflictTest err
       end.
Proof.
  unfold mountR2Storage. destruct (notConfigured env); [reflexivity|].
  unfold call, console.
  destruct (mountBucket sandbox _ _ _) as [[]|err]; [reflexivity|].
  erewrite try_rejected by reflexivity.
  apply mountR2Storage_handler_result.
Qed.

(** The mount calls of a run: none behind the guard, one otherwise. *)
Lemma mountR2Storage_mountCalls :
  mountCalls (snd (mountR2Storage cfg sandbox env)) =
  if notConfigured env then []
  else [(getR2BucketName cfg env, R2_MOUNT_PATH cfg, mountOptionsOf env)].
Proof.
  unfold mountR2Storage. destruct (notConfigured env); [reflexivity|].
  unfold call, console.
  destruct (mountBucket sandbox _ _ _) as [[]|err]; [reflexivity|].
  erewrite try_rejected by reflexivity.
  cbn [snd]. rewrite mountCalls_app, mountR2Storage_handler_mountCalls.
  reflexivity.
Qed.

(** A settled mount call of the run is the one call behind the guard. *)
Lemma mountSettlements_In (o : Outcome unit) :
  In o (mountSettlements sandbox (snd (mountR2Storage cfg sandbox env))) ->
  notConfigured env = false /\
  mountBucket sandbox (getR2BucketName cfg env) (R2_MOUNT_PATH cfg)
              (mountOptionsOf env) = o.
Proof.
  unfold mountSettlements. rewrite mountR2Storage_mountCalls.
  destruct (notConfigured env); simpl; [tauto|].
  intros [H|[]]. auto.
Qed.

End Reconciler.

Lemma truthy_Some (v : option string) :
  truthy v = true -> exists s, v = Some s /\ s <> EmptyString.
Proof.
  destruct v as [s|]; simpl; [|discriminate].
  intros H. exists s. split; [reflexivity|].
  apply String.eqb_neq. now destruct (s =? EmptyString)%string.
Qed.

Lemma notConfigured_false (env : MoltbotEnv) :
  notConfigured env = false ->
  truthy (R2_ACCESS_KEY_ID env) = true /\
  truthy (R2_SECRET_ACCESS_KEY env) = true /\
  truthy (CF_ACCOUNT_ID env) = true.
Proof.
  unfold notConfigured.
  destruct (truthy (R2_ACCESS_KEY_ID env)),
           (truthy (R2_SECRET_ACCESS_KEY env)),
           (truthy (CF_ACCOUNT_ID env)); simpl; intros H;
    try discriminate; auto.
Qed.

(** ** The cases of r2.test.ts, replayed *)

Example test_all_credentials_missing :
  mountR2Storage config (createMockSandbox false) createMockEnv =
  (Resolved false,
   [EvConsole LvLog [AStr "R2 storage not configured (missing R2_ACCESS_KEY_ID, R2_SECRET_ACCESS_KEY, or CF_ACCOUNT_ID)"]]).
Proof. reflexivity. Qed.

Example test_mounts_when_not_mounted :
  fst (mountR2Storage config (createMockSandbox false) envKey123)
  = Resolved true /\
  mountCalls (snd (mountR2Storage config (createMockSandbox false) envKey123))
  = [("moltbot-data", "/data/moltbot",
      {| endpoint := "https://account123.r2.cloudflarestorage.com";
         credentials := {| accessKeyId := Some "key123";
                           secretAccessKey := Some "secret" |} |})].
Proof. split; reflexivity. Qed.

Example test_filesystem_check_fails :
  fst (mountR2Storage config (conflictSandbox EmptyString) createMockEnvWithR2)
  = Resolved true /\
  In (EvConsole LvWarn [AStr "R2 mount registered but filesystem check failed - mount may be initializing"])
     (snd (mountR2Storage config (conflictSandbox EmptyString)
                          createMockEnvWithR2)).
Proof. split; vm_compute; auto 10. Qed.

Example test_invalid_credentials :
  fst (mountR2Storage config
         (mockSandbox (Rejected (ErrorObj "InvalidAccessKeyId" None))
                      (Resolved (createMockProcess EmptyString "completed")))
         createMockEnvWithR2) = Resolved false.
Proof. reflexivity. Qed.

Example poll_stuck_process :
  poll stuckProcess 0 = (Resolved tt, repeat (EvSleep 200) 10).
Proof. vm_compute. reflexivity. Qed.

(** ** The claims *)

(** C1. Whenever the [mountBucket] call made by [mountR2Storage] throws a
    value whose message contains "already in use", the function resolves to
    [true]; this holds for every sandbox, hence whatever the accessibility
    probe reports.  (A call is only made when the three credential fields
    are present.) *)
Theorem mountR2Storage_already_in_use cfg sandbox env err msg :
  In (Rejected err)
     (mountSettlements sandbox (snd (mountR2Storage cfg sandbox env))) ->
  errorMessageOf err = Resolved (Some msg) ->
  includes msg "already in use" = true ->
  fst (mountR2Storage cfg sandbox env) = Resolved true.
Proof.
  intros Hcall Herr Hmsg. apply mountSettlements_In in Hcall.
  destruct Hcall as [Hconf Hrej].
  rewrite mountR2Storage_result, Hconf, Hrej.
  apply conflictTest_resolved. eauto.
Qed.

Lemma mountR2Storage_already_in_use_witness :
  fst (mountR2Storage config (conflictSandbox "accessible")
                      createMockEnvWithR2) = Resolved true /\
  fst (isR2Accessible config (conflictSandbox "accessible")) = Resolved true /\
  fst (mountR2Storage config (conflictSandbox EmptyString)
                      createMockEnvWithR2) = Resolved true /\
  fst (isR2Accessible config (conflictSandbox EmptyString)) = Resolved false.
Proof.
  split; [|split; [|split]].
  - eapply (mountR2Storage_already_in_use config (conflictSandbox "accessible")
             createMockEnvWithR2 alreadyInUseError _).
    + vm_compute. left. reflexivity.
    + reflexivity.
    + vm_compute. reflexivity.
  - vm_compute. reflexivity.
  - eapply (mountR2Storage_already_in_use config (conflictSandbox EmptyString)
             createMockEnvWithR2 alreadyInUseError _).
    + vm_compute. left. reflexivity.
    + reflexivity.
    + vm_compute. reflexivity.
  - vm_compute. reflexivity.
Defined.

(** C2. If one of the three credential fields is absent from the
    environment, [mountR2Storage] resolves to [false] and the run contains
    no [mountBucket] call. *)
Theorem mountR2Storage_missing_credential cfg sandbox env :
  R2_ACCESS_KEY_ID env = None \/ R2_SECRET_ACCESS_KEY env = None \/
  CF_ACCOUNT_ID env = None ->
  fst (mountR2Storage cfg sandbox env) = Resolved false /\
  mountCalls (snd (mountR2Storage cfg sandbox env)) = [].
Proof.
  intros Habs.
  assert (Hguard : notConfigured env = true).
  { unfold notConfigured. destruct Habs as [H|[H|H]]; rewrite H; simpl.
    - reflexivity.
    - now rewrite orb_true_r.
    - now rewrite orb_true_r. }
  now rewrite mountR2Storage_result, mountR2Storage_mountCalls, Hguard.
Qed.

Lemma mountR2Storage_missing_credential_witness :
  fst (mountR2Storage config (createMockSandbox false) envMissingAccount)
  = Resolved false /\
  mountCalls
    (snd (mountR2Storage config (createMockSandbox false) envMissingAccount))
  = [].
Proof.
  apply (mountR2Storage_missing_credential config (createMockSandbox false)
           envMissingAccount).
  right. right. reflexivity.
Defined.

(** C3. Whenever the [mountBucket] call made by [mountR2Storage] succeeds,
    the function resolves to [true], the three credential fields are
    present, and the run contains exactly one [mountBucket] call, whose
    arguments are the resolved bucket name, the fixed mount path, and the
    options made of the endpoint derived from the account identifier and of
    the two credential fields. *)
Theorem mountR2Storage_mount_succeeds cfg sandbox env :
  In (Resolved tt)
     (mountSettlements sandbox (snd (mountR2Storage cfg sandbox env))) ->
  fst (mountR2Storage cfg sandbox env) = Resolved true /\
  exists key secret account,
    R2_ACCESS_KEY_ID env = Some key /\
    R2_SECRET_ACCESS_KEY env = Some secret /\
    CF_ACCOUNT_ID env = Some account /\
    mountCalls (snd (mountR2Storage cfg sandbox env)) =
    [(getR2BucketName cfg env, R2_MOUNT_PATH cfg,
      {| endpoint :=
           ("https://" ++ account ++ ".r2.cloudflarestorage.com")%string;
         credentials := {| accessKeyId := Some key;
                           secretAccessKey := Some secret |} |})].
Proof.
  intros Hcall. apply mountSettlements_In in Hcall.
  destruct Hcall as [Hconf Hok]. split.
  - now rewrite mountR2Storage_result, Hconf, Hok.
  - destruct (notConfigured_false env Hconf) as (Hk & Hs & Ha).
    apply truthy_Some in Hk, Hs, Ha.
    destruct Hk as (key & Hk & _), Hs as (secret & Hs & _),
             Ha as (account & Ha & _).
    exists key, secret, account. repeat split; auto.
    rewrite mountR2Storage_mountCalls, Hconf.
    unfold mountOptionsOf, endpointOf. now rewrite Hk, Hs, Ha.
Qed.

Lemma mountR2Storage_mount_succeeds_witness :
  fst (mountR2Storage config (createMockSandbox false) envKey123)
  = Resolved true /\
  exists key secret account,
    R2_ACCESS_KEY_ID envKey123 = Some key /\
    R2_SECRET_ACCESS_KEY envKey123 = Some secret /\
    CF_ACCOUNT_ID envKey123 = Some account /\
    mountCalls (snd (mountR2Storage config (createMockSandbox false) envKey123))
    = [(getR2BucketName config envKey123, R2_MOUNT_PATH config,
        {| endpoint :=
             ("https://" ++ account ++ ".r2.cloudflarestorage.com")%string;
           credentials := {| accessKeyId := Some key;
                             secretAccessKey := Some secret |} |})].
Proof.
  apply (mountR2Storage_mount_succeeds config (createMockSandbox false)
           envKey123).
  vm_compute. left. reflexivity.
Defined.

(** C4. Whenever the [mountBucket] call made by [mountR2Storage] throws a
    value whose message does not contain "already in use", the function
    resolves to [false]. *)
Theorem mountR2Storage_genuine_failure cfg sandbox env err msg :
  In (Rejected err)
     (mountSettlements sandbox (snd (mountR2Storage cfg sandbox env))) ->
  errorMessageOf err = Resolved (Some msg) ->
  includes msg "already in use" = false ->
  fst (mountR2Storage cfg sandbox env) = Resolved false.
Proof.
  intros Hcall Herr Hmsg. apply mountSettlements_In in Hcall.
  destruct Hcall as [Hconf Hrej].
  rewrite mountR2Storage_result, Hconf, Hrej.
  apply conflictTest_resolved. eauto.
Qed.

Lemma mountR2Storage_genuine_failure_witness :
  fst (mountR2Storage config networkTimeoutSandbox createMockEnvWithR2)
  = Resolved false.
Proof.
  apply (mountR2Storage_genuine_failure config networkTimeoutSandbox
           createMockEnvWithR2 (ErrorObj "Network timeout" None)
           "Network timeout").
  - vm_compute. left. reflexivity.
  - reflexivity.
  - vm_compute. reflexivity.
Defined.

(** How a run of [mountR2Storage] settles: resolved with a boolean, unless
    the mount call threw a value on which the test of lines 61 and 66 itself
    throws; the exception then leaves the [catch] block and the run is
    rejected with it. *)
Lemma mountR2Storage_settles cfg sandbox env :
  (exists b, fst (mountR2Storage cfg sandbox env) = Resolved b) \/
  (notConfigured env = false /\
   exists err e,
     mountBucket sandbox (getR2BucketName cfg env) (R2_MOUNT_PATH cfg)
                 (mountOptionsOf env) = Rejected err /\
     conflictTest err = Rejected e /\
     fst (mountR2Storage cfg sandbox env) = Rejected e).
Proof.
  rewrite mountR2Storage_result.
  destruct (notConfigured env); [eauto|].
  destruct (mountBucket sandbox _ _ _) as [[]|err]; [eauto|].
  destruct (conflictTest err) as [b|e] eqn:Htest; [eauto|].
  right. split; [reflexivity|]. exists err, e. auto.
Qed.

(** With a thrown value that has a message (an [Error] with a string
    message, or a value [String] can render) the run resolves. *)
Lemma mountR2Storage_resolves_with_message cfg sandbox env :
  (forall err,
     mountBucket sandbox (getR2BucketName cfg env) (R2_MOUNT_PATH cfg)
                 (mountOptionsOf env) = Rejected err ->
     exists msg, errorMessageOf err = Resolved (Some msg)) ->
  exists b, fst (mountR2Storage cfg sandbox env) = Resolved b.
Proof.
  intros Hmsg. rewrite mountR2Storage_result.
  destruct (notConfigured env); [eauto|].
  destruct (mountBucket sandbox _ _ _) as [[]|err]; [eauto|].
  destruct (Hmsg err eq_refl) as [msg Herr].
  exists (includes msg "already in use").
  apply conflictTest_resolved. eauto.
Qed.

(** C5. [mountR2Storage] can reject, against its own comment of line 89.
    When [mountBucket] throws a value that [String(err)] cannot render (such
    as [Object.create(null)]), line 61 throws inside the [catch] block; when
    it throws an [Error] whose message is [undefined], line 66 does.  Nothing
    catches that exception, and [mountR2Storage] rejects with it instead of
    returning a boolean. *)
Theorem mountR2Storage_rethrows :
  fst (mountR2Storage config unrenderableSandbox createMockEnvWithR2) =
  Rejected (TypeError "Cannot convert object to primitive value") /\
  fst (mountR2Storage config noMessageSandbox createMockEnvWithR2) =
  Rejected (TypeError "Cannot read properties of undefined (reading 'includes')").
Proof. split; reflexivity. Qed.

(** C6. [isR2Accessible] never rejects: for every sandbox the run ends
    resolved with a boolean, and whenever the probe sequence raises (its
    [try] block rejects, which is what happens when [startProcess] or the
    log retrieval throws) the probe resolves to [false]. *)
Theorem isR2Accessible_never_throws cfg sandbox :
  (exists b, fst (isR2Accessible cfg sandbox) = Resolved b) /\
  (forall e, fst (isR2Accessible_body cfg sandbox) = Rejected e ->
             fst (isR2Accessible cfg sandbox) = Resolved false) /\
  (forall e, startProcess sandbox (probeCommand cfg) = Rejected e ->
             fst (isR2Accessible_body cfg sandbox) = Rejected e) /\
  (forall proc e, startProcess sandbox (probeCommand cfg) = Resolved proc ->
                  getLogs proc = Rejected e ->
                  fst (isR2Accessible_body cfg sandbox) = Rejected e).
Proof.
  split; [apply isR2Accessible_resolves|].
  pose proof (isR2Accessible_body_run cfg sandbox) as Hbody.
  repeat split.
  - intros e Hrej. unfold isR2Accessible.
    destruct (isR2Accessible_body cfg sandbox) as [o t].
    simpl in Hrej. subst o. reflexivity.
  - intros e He. rewrite He in Hbody. now rewrite Hbody.
  - intros proc e Hp Hl. rewrite Hp in Hbody.
    destruct Hbody as (n & _ & _ & _ & Heq). now rewrite Heq, Hl.
Qed.

Lemma isR2Accessible_never_throws_witness :
  fst (isR2Accessible config startFailsSandbox) = Resolved false /\
  fst (isR2Accessible config logsFailSandbox) = Resolved false.
Proof.
  split.
  - destruct (isR2Accessible_never_throws config startFailsSandbox)
      as (_ & Hcatch & Hstart & _).
    apply (Hcatch (ErrorObj "sandbox unavailable" None)).
    apply Hstart. reflexivity.
  - destruct (isR2Accessible_never_throws config logsFailSandbox)
      as (_ & Hcatch & _ & Hlogs).
    apply (Hcatch (NonError "stream closed")).
    apply (Hlogs logsFailProcess); reflexivity.
Defined.

(** C7. Once the probe process is started, the loop sleeps [n] times, 200 ms
    each, with [n <= 10]: once for each of the first consecutive reads of
    the status "running", and no more than 10 times in all; the log
    retrieval follows at once, whatever the statuses are, and the probe ends
    resolved with a boolean. *)
Theorem isR2Accessible_poll_bounded cfg sandbox proc :
  startProcess sandbox (probeCommand cfg) = Resolved proc ->
  exists n rest,
    n <= 10 /\
    (forall k, k < n -> status proc k = "running") /\
    (n < 10 -> status proc n <> "running") /\
    snd (isR2Accessible cfg sandbox) =
      EvStartProcess (probeCommand cfg) :: repeat (EvSleep 200) n
      ++ EvGetLogs :: rest /\
    (forall ev, In ev rest -> exists lvl args, ev = EvConsole lvl args) /\
    exists b, fst (isR2Accessible cfg sandbox) = Resolved b.
Proof.
  intros Hstart.
  pose proof (isR2Accessible_run cfg sandbox) as Hrun.
  rewrite Hstart in Hrun. destruct Hrun as (n & Hn & Hrunning & Hstop & Heq).
  exists n. rewrite Heq.
  destruct (getLogs proc) as [logs|e]; simpl;
    (eexists; repeat split;
     [ exact Hn | exact Hrunning | exact Hstop
     | intros ev [<-|[]]; eauto | eauto ]).
Qed.

Lemma isR2Accessible_poll_bounded_witness :
  exists n rest,
    n <= 10 /\
    (forall k, k < n -> status stuckProcess k = "running") /\
    (n < 10 -> status stuckProcess n <> "running") /\
    snd (isR2Accessible config stuckSandbox) =
      EvStartProcess (probeCommand config) :: repeat (EvSleep 200) n
      ++ EvGetLogs :: rest /\
    (forall ev, In ev rest -> exists lvl args, ev = EvConsole lvl args) /\
    exists b, fst (isR2Accessible config stuckSandbox) = Resolved b.
Proof.
  apply (isR2Accessible_poll_bounded config stuckSandbox stuckProcess).
  reflexivity.
Defined.

(** C8. When neither [startProcess] nor the log retrieval throws, the probe
    resolves to a boolean that is [true] exactly when the captured standard
    output is a non-empty string containing the token "accessible". *)
Theorem isR2Accessible_true_iff cfg sandbox proc logs :
  startProcess sandbox (probeCommand cfg) = Resolved proc ->
  getLogs proc = Resolved logs ->
  exists b,
    fst (isR2Accessible cfg sandbox) = Resolved b /\
    (b = true <->
     exists s, stdout logs = Some s /\ s <> EmptyString /\
               exists pre post, s = (pre ++ "accessible" ++ post)%string).
Proof.
  intros Hstart Hlogs.
  pose proof (isR2Accessible_run cfg sandbox) as Hrun.
  rewrite Hstart in Hrun. destruct Hrun as (n & _ & _ & _ & Heq).
  rewrite Hlogs in Heq. exists (accessibleFlag logs). split.
  - now rewrite Heq.
  - apply accessibleFlag_spec.
Qed.

Lemma isR2Accessible_true_iff_witness :
  exists b,
    fst (isR2Accessible config (createMockSandbox true)) = Resolved b /\
    (b = true <->
     exists s, Some "accessible" = Some s /\ s <> EmptyString /\
               exists pre post, s = (pre ++ "accessible" ++ post)%string).
Proof.
  apply (isR2Accessible_true_iff config (createMockSandbox true)
           (createMockProcess "accessible" "completed")
           {| stdout := Some "accessible"; stderr := Some EmptyString |}).
  - reflexivity.
  - reflexivity.
Defined.

(** C9. With the bucket-name resolution of the configuration module, an
    environment that supplies the override [R2_BUCKET_NAME] makes
    [mountR2Storage] pass that very name as the first argument of its
    [mountBucket] call: the run has no such call behind the guard, and
    otherwise exactly one, whose bucket name is the override. *)
Theorem mountR2Storage_custom_bucket sandbox env name :
  R2_BUCKET_NAME env = Some name ->
  mountCalls (snd (mountR2Storage config sandbox env)) =
  if notConfigured env then []
  else [(name, R2_MOUNT_PATH config, mountOptionsOf env)].
Proof.
  intros Hname. rewrite mountR2Storage_mountCalls.
  replace (getR2BucketName config env) with name
    by (unfold config; cbn [getR2BucketName]; now rewrite Hname).
  reflexivity.
Qed.

Lemma mountR2Storage_custom_bucket_witness :
  mountCalls
    (snd (mountR2Storage config (createMockSandbox false) envCustomBucket))
  = [("moltbot-e2e-test123", "/data/moltbot", mountOptionsOf envCustomBucket)].
Proof.
  apply (mountR2Storage_custom_bucket (createMockSandbox false)
           envCustomBucket "moltbot-e2e-test123").
  reflexivity.
Defined.

(** C10. A credential field that holds the empty string is treated like an
    absent one: if one of the three fields is the empty string,
    [mountR2Storage] resolves to [false] and the run contains no
    [mountBucket] call. *)
Theorem mountR2Storage_empty_credential cfg sandbox env :
  R2_ACCESS_KEY_ID env = Some EmptyString \/
  R2_SECRET_ACCESS_KEY env = Some EmptyString \/
  CF_ACCOUNT_ID env = Some EmptyString ->
  fst (mountR2Storage cfg sandbox env) = Resolved false /\
  mountCalls (snd (mountR2Storage cfg sandbox env)) = [].
Proof.
  intros Hempty.
  assert (Hguard : notConfigured env = true).
  { unfold notConfigured. destruct Hempty as [H|[H|H]]; rewrite H; simpl.
    - reflexivity.
    - now rewrite orb_true_r.
    - now rewrite orb_true_r. }
  now rewrite mountR2Storage_result, mountR2Storage_mountCalls, Hguard.
Qed.

Lemma mountR2Storage_empty_credential_witness :
  fst (mountR2Storage config (createMockSandbox false) envEmptySecret)
  = Resolved false /\
  mountCalls
    (snd (mountR2Storage config (createMockSandbox false) envEmptySecret))
  = [].
Proof.
  apply (mountR2Storage_empty_credential config (createMockSandbox false)
           envEmptySecret).
  right. left. reflexivity.
Defined.

(** * Further properties of the code *)

(** ** Reading a run *)

Lemma flat_map_repeat_nil {A B} (f : A -> list B) (x : A) (n : nat) :
  f x = [] -> flat_map f (repeat x n) = [].
Proof. intros Hf. induction n; simpl; [reflexivity|]. now rewrite Hf, IHn. Qed.

Lemma sleeps_repeat (ms n : nat) :
  sleeps (repeat (EvSleep ms) n) = repeat ms n.
Proof. induction n; simpl; [reflexivity|]. now f_equal. Qed.

Lemma list_sum_repeat (x n : nat) : list_sum (repeat x n) = n * x.
Proof. induction n; simpl; [reflexivity|]. rewrite IHn. lia. Qed.

Ltac read_run :=
  unfold startCalls, logReads, sleeps, consoleLines;
  cbn [flat_map app Level_eqb];
  rewrite ?flat_map_app;
  cbn [flat_map app Level_eqb];
  rewrite ?flat_map_repeat_nil by reflexivity;
  cbn [flat_map app Level_eqb].

(** What the probe does to the outside: one process started with the probe
    command, at most ten sleeps of 200 ms, at most one log retrieval,
    nothing printed above the log level, no mount call. *)
Lemma isR2Accessible_summary cfg sandbox :
  startCalls (snd (isR2Accessible cfg sandbox)) = [probeCommand cfg] /\
  length (logReads (snd (isR2Accessible cfg sandbox))) <= 1 /\
  (exists n, n <= 10 /\
             sleeps (snd (isR2Accessible cfg sandbox)) = repeat 200 n) /\
  consoleLines LvWarn (snd (isR2Accessible cfg sandbox)) = [] /\
  consoleLines LvError (snd (isR2Accessible cfg sandbox)) = [].
Proof.
  pose proof (isR2Accessible_run cfg sandbox) as Hrun.
  destruct (startProcess sandbox (probeCommand cfg)) as [proc|e].
  - destruct Hrun as (n & Hn & _ & _ & Heq). rewrite Heq.
    destruct (getLogs proc) as [logs|e]; cbn [snd];
      (repeat split;
       [ now read_run
       | read_run; simpl; lia
       | exists n; split; [exact Hn|];
         unfold sleeps; cbn [flat_map app]; rewrite flat_map_app;
         fold (sleeps (repeat (EvSleep 200) n)); rewrite sleeps_repeat;
         cbn [flat_map app]; now rewrite app_nil_r
       | now read_run
       | now read_run ]).
  - rewrite Hrun. cbn [snd]. repeat split; try reflexivity.
    + simpl. lia.
    + exists 0. split; [lia|reflexivity].
Qed.

(** The verdict of the probe as a boolean. *)
Lemma isR2Accessible_verdict cfg sandbox :
  fst (isR2Accessible cfg sandbox) = Resolved true \/
  fst (isR2Accessible cfg sandbox) = Resolved false.
Proof.
  destruct (isR2Accessible_resolves cfg sandbox) as [[|] Hb]; auto.
Qed.

(** The run of the [catch] block. *)
Lemma mountR2Storage_handler_run cfg sandbox bucketName endpoint err :
  mountR2Storage_handler cfg sandbox bucketName endpoint err =
  match errorMessageOf err with
  | Resolved (Some msg) =>
      if includes msg "already in use" then
        (Resolved true,
         EvConsole LvLog [AStr "R2 bucket already mounted at";
                          AStr (R2_MOUNT_PATH cfg);
                          AStr "(confirmed by Sandbox API)"]
         :: snd (isR2Accessible cfg sandbox)
         ++ [match fst (isR2Accessible cfg sandbox) with
             | Resolved true =>
                 EvConsole LvLog [AStr "R2 mount verified - storage is accessible"]
             | _ =>
                 EvConsole LvWarn [AStr "R2 mount registered but filesystem check failed - mount may be initializing"]
             end])
      else
        (Resolved false,
         EvConsole LvError [AStr "R2 mount error:"; AStr msg]
         :: (if instanceofError err && truthy (stackOf err)
             then [EvConsole LvError [AStr "R2 mount stack:";
                                      argOf (stackOf err)]]
             else [])
         ++ [EvConsole LvError [AStr "R2 mount details:";
                                ADetails bucketName (R2_MOUNT_PATH cfg)
                                         endpoint];
             EvConsole LvError [AStr "Failed to mount R2 bucket:";
                                AThrown err]])
  | _ => (conflictTest err, [])
  end.
Proof.
  unfold mountR2Storage_handler, conflictTest, settle.
  destruct (errorMessageOf err) as [[msg|]|e]; try reflexivity.
  cbn [bind includesOf].
  destruct (includes msg "already in use").
  - destruct (isR2Accessible_resolves cfg sandbox) as [b Hb].
    destruct (isR2Accessible cfg sandbox) as [o t]. simpl in Hb. subst o.
    destruct b; reflexivity.
  - destruct (instanceofError err && truthy (stackOf err)); reflexivity.
Qed.

(** The run of [mountR2Storage] past the guard. *)
Lemma mountR2Storage_configured_run cfg sandbox env :
  notConfigured env = false ->
  mountR2Storage cfg sandbox env =
  match mountBucket sandbox (getR2BucketName cfg env) (R2_MOUNT_PATH cfg)
                    (mountOptionsOf env) with
  | Resolved _ =>
      (Resolved true,
       [EvConsole LvLog [AStr "Mounting R2 bucket";
                         AStr (getR2BucketName cfg env); AStr "at";
                         AStr (R2_MOUNT_PATH cfg); AStr "endpoint:";
                         AStr (endpointOf env)];
        EvMountBucket (getR2BucketName cfg env) (R2_MOUNT_PATH cfg)
                      (mountOptionsOf env);
        EvConsole LvLog [AStr "R2 bucket mounted successfully - moltbot data will persist across sessions"]])
  | Rejected err =>
      (fst (mountR2Storage_handler cfg sandbox (getR2BucketName cfg env)
                                   (endpointOf env) err),
       [EvConsole LvLog [AStr "Mounting R2 bucket";
                         AStr (getR2BucketName cfg env); AStr "at";
                         AStr (R2_MOUNT_PATH cfg); AStr "endpoint:";
                         AStr (endpointOf env)];
        EvMountBucket (getR2BucketName cfg env) (R2_MOUNT_PATH cfg)
                      (mountOptionsOf env)]
       ++ snd (mountR2Storage_handler cfg sandbox (getR2BucketName cfg env)
                                      (endpointOf env) err))
  end.
Proof.
  intros Hconf. unfold mountR2Storage. rewrite Hconf. unfold call, console.
  destruct (mountBucket sandbox _ _ _) as [[]|err]; [reflexivity|].
  now erewrite try_rejected by reflexivity.
Qed.

Lemma mountR2Storage_unconfigured_run cfg sandbox env :
  notConfigured env = true ->
  mountR2Storage cfg sandbox env =
  (Resolved false,
   [EvConsole LvLog [AStr "R2 storage not configured (missing R2_ACCESS_KEY_ID, R2_SECRET_ACCESS_KEY, or CF_ACCOUNT_ID)"]]).
Proof. intros Hconf. unfold mountR2Storage. now rewrite Hconf. Qed.

(** The guard lets an environment through exactly when its three credential
    fields are non-empty strings. *)
Lemma notConfigured_false_iff (env : MoltbotEnv) :
  notConfigured env = false <->
  exists key secret account,
    R2_ACCESS_KEY_ID env = Some key /\ key <> EmptyString /\
    R2_SECRET_ACCESS_KEY env = Some secret /\ secret <> EmptyString /\
    CF_ACCOUNT_ID env = Some account /\ account <> EmptyString.
Proof.
  split.
  - intros Hconf. destruct (notConfigured_false env Hconf) as (Hk & Hs & Ha).
    apply truthy_Some in Hk, Hs, Ha.
    destruct Hk as (key & Hk & Hk'), Hs as (secret & Hs & Hs'),
             Ha as (account & Ha & Ha').
    exists key, secret, account. auto 10.
  - intros (key & secret & account & Hk & Hk' & Hs & Hs' & Ha & Ha').
    unfold notConfigured. rewrite Hk, Hs, Ha. simpl.
    apply String.eqb_neq in Hk', Hs', Ha'. now rewrite Hk', Hs', Ha'.
Qed.

(** The five ways a run of [mountR2Storage] can go. *)
Lemma mountR2Storage_cases cfg sandbox env :
  (notConfigured env = true /\
   exists l0,
     mountR2Storage cfg sandbox env = (Resolved false, [EvConsole LvLog l0]))
  \/
  (notConfigured env = false /\
   mountBucket sandbox (getR2BucketName cfg env) (R2_MOUNT_PATH cfg)
               (mountOptionsOf env) = Resolved tt /\
   exists l1 l2,
     mountR2Storage cfg sandbox env =
     (Resolved true,
      [EvConsole LvLog l1;
       EvMountBucket (getR2BucketName cfg env) (R2_MOUNT_PATH cfg)
                     (mountOptionsOf env);
       EvConsole LvLog l2]))
  \/
  (notConfigured env = false /\
   exists err msg l1 l2,
     mountBucket sandbox (getR2BucketName cfg env) (R2_MOUNT_PATH cfg)
                 (mountOptionsOf env) = Rejected err /\
     errorMessageOf err = Resolved (Some msg) /\
     includes msg "already in use" = true /\
     mountR2Storage cfg sandbox env =
     (Resolved true,
      [EvConsole LvLog l1;
       EvMountBucket (getR2BucketName cfg env) (R2_MOUNT_PATH cfg)
                     (mountOptionsOf env);
       EvConsole LvLog l2]
      ++ snd (isR2Accessible cfg sandbox)
      ++ [match fst (isR2Accessible cfg sandbox) with
          | Resolved true =>
              EvConsole LvLog [AStr "R2 mount verified - storage is accessible"]
          | _ =>
              EvConsole LvWarn [AStr "R2 mount registered but filesystem check failed - mount may be initializing"]
          end]))
  \/
  (notConfigured env = false /\
   exists err msg l1,
     mountBucket sandbox (getR2BucketName cfg env) (R2_MOUNT_PATH cfg)
                 (mountOptionsOf env) = Rejected err /\
     errorMessageOf err = Resolved (Some msg) /\
     includes msg "already in use" = false /\
     mountR2Storage cfg sandbox env =
     (Resolved false,
      [EvConsole LvLog l1;
       EvMountBucket (getR2BucketName cfg env) (R2_MOUNT_PATH cfg)
                     (mountOptionsOf env);
       EvConsole LvError [AStr "R2 mount error:"; AStr msg]]
      ++ (if instanceofError err && truthy (stackOf err)
          then [EvConsole LvError [AStr "R2 mount stack:";
                                   argOf (stackOf err)]]
          else [])
      ++ [EvConsole LvError [AStr "R2 mount details:";
                             ADetails (getR2BucketName cfg env)
                                      (R2_MOUNT_PATH cfg) (endpointOf env)];
          EvConsole LvError [AStr "Failed to mount R2 bucket:";
                             AThrown err]]))
  \/
  (notConfigured env = false /\
   exists err e l1,
     mountBucket sandbox (getR2BucketName cfg env) (R2_MOUNT_PATH cfg)
                 (mountOptionsOf env) = Rejected err /\
     (forall msg, errorMessageOf err <> Resolved (Some msg)) /\
     mountR2Storage cfg sandbox env =
     (Rejected e,
      [EvConsole LvLog l1;
       EvMountBucket (getR2BucketName cfg env) (R2_MOUNT_PATH cfg)
                     (mountOptionsOf env)])).
Proof.
  destruct (notConfigured env) eqn:Hconf.
  - left. split; [reflexivity|]. eexists.
    now apply mountR2Storage_unconfigured_run.
  - right. pose proof (mountR2Storage_configured_run cfg sandbox env Hconf)
      as Hrun.
    destruct (mountBucket sandbox _ _ _) as [[]|err].
    + left. split; [reflexivity|]. split; [reflexivity|].
      do 2 eexists. exact Hrun.
    + right. rewrite mountR2Storage_handler_run in Hrun.
      destruct (errorMessageOf err) as [[msg|]|e] eqn:Herr.
      * destruct (includes msg "already in use") eqn:Hmsg;
          cbn [fst snd] in Hrun.
        -- left. split; [reflexivity|]. exists err, msg. do 2 eexists.
           split; [reflexivity|]. split; [exact Herr|].
           split; [exact Hmsg|]. exact Hrun.
        -- right. left. split; [reflexivity|]. exists err, msg. eexists.
           split; [reflexivity|]. split; [exact Herr|].
           split; [exact Hmsg|]. exact Hrun.
      * right. right. split; [reflexivity|].
        unfold conflictTest in Hrun. rewrite Herr in Hrun.
        cbn [fst snd includesOf] in Hrun. rewrite app_nil_r in Hrun.
        exists err. do 2 eexists. split; [reflexivity|].
        split; [|exact Hrun]. intros msg H. rewrite Herr in H. discriminate.
      * right. right. split; [reflexivity|].
        unfold conflictTest in Hrun. rewrite Herr in Hrun.
        cbn [fst snd] in Hrun. rewrite app_nil_r in Hrun.
        exists err. do 2 eexists. split; [reflexivity|].
        split; [|exact Hrun]. intros msg H. rewrite Herr in H. discriminate.
Qed.

(** ** Properties of [mountR2Storage] *)

(** X1. [mountR2Storage] resolves to [true] exactly when the three
    credential fields are non-empty strings and the mount call either
    succeeds or throws a value whose message has "already in use" as a
    substring. *)
Theorem mountR2Storage_true_iff cfg sandbox env :
  fst (mountR2Storage cfg sandbox env) = Resolved true <->
  (exists key secret account,
     R2_ACCESS_KEY_ID env = Some key /\ key <> EmptyString /\
     R2_SECRET_ACCESS_KEY env = Some secret /\ secret <> EmptyString /\
     CF_ACCOUNT_ID env = Some account /\ account <> EmptyString) /\
  (mountBucket sandbox (getR2BucketName cfg env) (R2_MOUNT_PATH cfg)
               (mountOptionsOf env) = Resolved tt \/
   exists err pre post,
     mountBucket sandbox (getR2BucketName cfg env) (R2_MOUNT_PATH cfg)
                 (mountOptionsOf env) = Rejected err /\
     errorMessageOf err =
     Resolved (Some (pre ++ "already in use" ++ post)%string)).
Proof.
  rewrite mountR2Storage_result, <- notConfigured_false_iff.
  destruct (notConfigured env).
  - split; [discriminate | intros [H _]; discriminate].
  - destruct (mountBucket sandbox _ _ _) as [[]|err].
    + split; auto.
    + rewrite conflictTest_resolved. split.
      * intros (msg & Herr & H). split; [reflexivity|]. right.
        apply includes_spec in H.
        destruct H as (pre & post & ->). exists err, pre, post. auto.
      * intros [_ [H|(err' & pre & post & Herr & Hmsg)]]; [discriminate|].
        injection Herr as <-. eexists. split; [exact Hmsg|].
        apply includes_spec. eauto.
Qed.

(** X2. A run makes a single attempt: at most one [mountBucket] call, at
    most one process started, at most one log retrieval. *)
Theorem mountR2Storage_single_attempt cfg sandbox env :
  length (mountCalls (snd (mountR2Storage cfg sandbox env))) <= 1 /\
  length (startCalls (snd (mountR2Storage cfg sandbox env))) <= 1 /\
  length (logReads (snd (mountR2Storage cfg sandbox env))) <= 1.
Proof.
  split.
  - rewrite mountR2Storage_mountCalls. destruct (notConfigured env); simpl; lia.
  - destruct (isR2Accessible_summary cfg sandbox) as (Hs & Hl & _).
    destruct (mountR2Storage_cases cfg sandbox env)
      as [(_ & l0 & ->)
         |[(_ & _ & l1 & l2 & ->)
          |[(_ & err & msg & l1 & l2 & _ & _ & _ & ->)
           |[(_ & err & msg & l1 & _ & _ & _ & ->)
            |(_ & err & e & l1 & _ & _ & ->)]]]]; cbn [snd].
    + split; simpl; lia.
    + split; simpl; lia.
    + split.
      * read_run. fold (startCalls (snd (isR2Accessible cfg sandbox))).
        rewrite Hs.
        destruct (fst (isR2Accessible cfg sandbox)) as [[|]|]; simpl; lia.
      * read_run. fold (logReads (snd (isR2Accessible cfg sandbox))).
        rewrite length_app.
        destruct (fst (isR2Accessible cfg sandbox)) as [[|]|]; simpl; lia.
    + destruct (instanceofError err && truthy (stackOf err));
        split; simpl; lia.
    + split; simpl; lia.
Qed.

(** X3. The accessibility probe is started only on a conflict: a process is
    started in the sandbox exactly when the guard is passed and the mount
    call throws a value whose message includes "already in use", and the
    command is then the probe command. *)
Theorem mountR2Storage_probe_iff_conflict cfg sandbox env c :
  In c (startCalls (snd (mountR2Storage cfg sandbox env))) <->
  c = probeCommand cfg /\
  notConfigured env = false /\
  exists err msg,
    mountBucket sandbox (getR2BucketName cfg env) (R2_MOUNT_PATH cfg)
                (mountOptionsOf env) = Rejected err /\
    errorMessageOf err = Resolved (Some msg) /\
    includes msg "already in use" = true.
Proof.
  destruct (isR2Accessible_summary cfg sandbox) as (Hs & _).
  destruct (mountR2Storage_cases cfg sandbox env)
    as [(Hconf & l0 & ->)
       |[(Hconf & Hok & l1 & l2 & ->)
        |[(Hconf & err & msg & l1 & l2 & Hrej & Herr & Hmsg & ->)
         |[(Hconf & err & msg & l1 & Hrej & Herr & Hmsg & ->)
          |(Hconf & err & e & l1 & Hrej & Hnone & ->)]]]]; cbn [snd].
  - simpl. split; [tauto|]. intros (_ & H & _). congruence.
  - simpl. split; [tauto|]. intros (_ & _ & err & msg & H & _). congruence.
  - destruct (isR2Accessible_verdict cfg sandbox) as [Hv|Hv]; rewrite Hv;
      read_run; fold (startCalls (snd (isR2Accessible cfg sandbox)));
      rewrite Hs; simpl;
      (split; [intros [<-|[]]; eauto 10 | intros (-> & _); auto]).
  - destruct (instanceofError err && truthy (stackOf err)); simpl;
      (split; [tauto|]);
      intros (_ & _ & err' & msg' & Hrej' & Herr' & Hmsg'); congruence.
  - simpl. split; [tauto|].
    intros (_ & _ & err' & msg' & Hrej' & Herr' & _).
    rewrite Hrej in Hrej'. injection Hrej' as <-. now elim (Hnone msg').
Qed.

Lemma mountR2Storage_true_iff_witness :
  fst (mountR2Storage config (conflictSandbox EmptyString) createMockEnvWithR2)
  = Resolved true.
Proof.
  apply (proj2 (mountR2Storage_true_iff config (conflictSandbox EmptyString)
                  createMockEnvWithR2)).
  split.
  - exists "test-key-id", "test-secret-key", "test-account-id".
    repeat split; discriminate.
  - right. exists alreadyInUseError.
    exists ("InvalidMountConfigError: Mount path " ++ dquote
            ++ "/data/moltbot" ++ dquote ++ " is ")%string.
    exists (" by bucket " ++ dquote ++ "moltbot-data" ++ dquote
            ++ ". Unmount the existing bucket first or use a different mount path.")%string.
    split; reflexivity.
Defined.

Lemma mountR2Storage_probe_iff_conflict_witness :
  In (probeCommand config)
     (startCalls (snd (mountR2Storage config (conflictSandbox EmptyString)
                                      createMockEnvWithR2))).
Proof.
  apply (proj2 (mountR2Storage_probe_iff_conflict config
                  (conflictSandbox EmptyString) createMockEnvWithR2
                  (probeCommand config))).
  split; [reflexivity|]. split; [reflexivity|].
  exists alreadyInUseError. eexists.
  split; [reflexivity|]. split; [reflexivity | vm_compute; reflexivity].
Defined.

(** X4. The warning is printed exactly when the mount call was a conflict
    and the probe resolved to [false]; nothing else is ever printed at the
    warning level. *)
Theorem mountR2Storage_warns_iff cfg sandbox env args :
  In args (consoleLines LvWarn (snd (mountR2Storage cfg sandbox env))) <->
  args = [AStr "R2 mount registered but filesystem check failed - mount may be initializing"] /\
  notConfigured env = false /\
  (exists err msg,
     mountBucket sandbox (getR2BucketName cfg env) (R2_MOUNT_PATH cfg)
                 (mountOptionsOf env) = Rejected err /\
     errorMessageOf err = Resolved (Some msg) /\
     includes msg "already in use" = true) /\
  fst (isR2Accessible cfg sandbox) = Resolved false.
Proof.
  destruct (isR2Accessible_summary cfg sandbox) as (_ & _ & _ & Hw & _).
  destruct (mountR2Storage_cases cfg sandbox env)
    as [(Hconf & l0 & ->)
       |[(Hconf & Hok & l1 & l2 & ->)
        |[(Hconf & err & msg & l1 & l2 & Hrej & Herr & Hmsg & ->)
         |[(Hconf & err & msg & l1 & Hrej & Herr & Hmsg & ->)
          |(Hconf & err & e & l1 & Hrej & Hnone & ->)]]]]; cbn [snd].
  - simpl. split; [tauto|]. intros (_ & H & _). congruence.
  - simpl. split; [tauto|].
    intros (_ & _ & (err & msg & H & _) & _). congruence.
  - destruct (isR2Accessible_verdict cfg sandbox) as [Hv|Hv]; rewrite Hv;
      read_run; fold (consoleLines LvWarn (snd (isR2Accessible cfg sandbox)));
      rewrite Hw; simpl.
    + split; [tauto|]. intros (_ & _ & _ & H). discriminate.
    + split.
      * intros [<-|[]]. eauto 12.
      * intros (-> & _). auto.
  - destruct (instanceofError err && truthy (stackOf err)); simpl;
      (split; [tauto|]);
      intros (_ & _ & (err' & msg' & Hrej' & Herr' & Hmsg') & _); congruence.
  - simpl. split; [tauto|].
    intros (_ & _ & (err' & msg' & Hrej' & Herr' & _) & _).
    rewrite Hrej in Hrej'. injection Hrej' as <-. now elim (Hnone msg').
Qed.

Lemma mountR2Storage_warns_iff_witness :
  In [AStr "R2 mount registered but filesystem check failed - mount may be initializing"]
     (consoleLines LvWarn
        (snd (mountR2Storage config (conflictSandbox EmptyString)
                             createMockEnvWithR2))).
Proof.
  apply (proj2 (mountR2Storage_warns_iff config (conflictSandbox EmptyString)
                  createMockEnvWithR2 _)).
  split; [reflexivity|]. split; [reflexivity|]. split.
  - exists alreadyInUseError. eexists.
    split; [reflexivity|]. split; [reflexivity | vm_compute; reflexivity].
  - vm_compute. reflexivity.
Defined.

(** X5. Output at the error level appears exactly on a genuine failure: the
    guard is passed and the mount call throws a value whose message does not
    include "already in use". *)
Theorem mountR2Storage_errors_iff cfg sandbox env :
  consoleLines LvError (snd (mountR2Storage cfg sandbox env)) <> [] <->
  notConfigured env = false /\
  exists err msg,
    mountBucket sandbox (getR2BucketName cfg env) (R2_MOUNT_PATH cfg)
                (mountOptionsOf env) = Rejected err /\
    errorMessageOf err = Resolved (Some msg) /\
    includes msg "already in use" = false.
Proof.
  destruct (isR2Accessible_summary cfg sandbox) as (_ & _ & _ & _ & He).
  destruct (mountR2Storage_cases cfg sandbox env)
    as [(Hconf & l0 & ->)
       |[(Hconf & Hok & l1 & l2 & ->)
        |[(Hconf & err & msg & l1 & l2 & Hrej & Herr & Hmsg & ->)
         |[(Hconf & err & msg & l1 & Hrej & Herr & Hmsg & ->)
          |(Hconf & err & e & l1 & Hrej & Hnone & ->)]]]]; cbn [snd].
  - simpl. split; [congruence|]. intros (H & _). congruence.
  - simpl. split; [congruence|]. intros (_ & err & msg & H & _). congruence.
  - destruct (isR2Accessible_verdict cfg sandbox) as [Hv|Hv]; rewrite Hv;
      read_run; fold (consoleLines LvError (snd (isR2Accessible cfg sandbox)));
      rewrite He; simpl;
      (split; [congruence|]);
      intros (_ & err' & msg' & Hrej' & Herr' & Hmsg'); congruence.
  - split; [eauto 6|]. intros _. simpl. discriminate.
  - simpl. split; [congruence|].
    intros (_ & err' & msg' & Hrej' & Herr' & _).
    rewrite Hrej in Hrej'. injection Hrej' as <-. now elim (Hnone msg').
Qed.

Lemma mountR2Storage_errors_iff_witness :
  consoleLines LvError
    (snd (mountR2Storage config networkTimeoutSandbox createMockEnvWithR2))
  <> [].
Proof.
  apply (proj2 (mountR2Storage_errors_iff config networkTimeoutSandbox
                  createMockEnvWithR2)).
  split; [reflexivity|].
  exists (ErrorObj "Network timeout" None), "Network timeout".
  split; [reflexivity|]. split; [reflexivity | vm_compute; reflexivity].
Defined.

(** X6. The report of a genuine failure: the message, then the stack when
    the thrown value is an [Error] with a non-empty stack (and only then),
    then the bucket, mount path and endpoint, then the thrown value. *)
Theorem mountR2Storage_failure_report cfg sandbox env err msg :
  notConfigured env = false ->
  mountBucket sandbox (getR2BucketName cfg env) (R2_MOUNT_PATH cfg)
              (mountOptionsOf env) = Rejected err ->
  errorMessageOf err = Resolved (Some msg) ->
  includes msg "already in use" = false ->
  consoleLines LvError (snd (mountR2Storage cfg sandbox env)) =
  [AStr "R2 mount error:"; AStr msg]
  :: match err with
     | ErrorObj _ (Some st) =>
         if (st =? EmptyString)%string then []
         else [[AStr "R2 mount stack:"; AStr st]]
     | _ => []
     end
  ++ [[AStr "R2 mount details:";
       ADetails (getR2BucketName cfg env) (R2_MOUNT_PATH cfg)
                ("https://" ++ interpolate (CF_ACCOUNT_ID env)
                 ++ ".r2.cloudflarestorage.com")];
      [AStr "Failed to mount R2 bucket:"; AThrown err]].
Proof.
  intros Hconf Hrej Herr Hmsg.
  rewrite (mountR2Storage_configured_run cfg sandbox env Hconf), Hrej.
  rewrite mountR2Storage_handler_run, Herr, Hmsg. cbn [snd].
  destruct err as [m [st|]|r|st|]; simpl; try reflexivity;
    try discriminate Herr.
  destruct (st =? EmptyString)%string; reflexivity.
Qed.

Lemma mountR2Storage_failure_report_witness :
  consoleLines LvError
    (snd (mountR2Storage config
            (mockSandbox (Rejected (ErrorObj "InvalidAccessKeyId"
                                             (Some "Error: InvalidAccessKeyId at mountBucket")))
                         (Rejected (NonError "unused")))
            envKey123)) =
  [[AStr "R2 mount error:"; AStr "InvalidAccessKeyId"];
   [AStr "R2 mount stack:"; AStr "Error: InvalidAccessKeyId at mountBucket"];
   [AStr "R2 mount details:";
    ADetails "moltbot-data" "/data/moltbot"
             "https://account123.r2.cloudflarestorage.com"];
   [AStr "Failed to mount R2 bucket:";
    AThrown (ErrorObj "InvalidAccessKeyId"
                      (Some "Error: InvalidAccessKeyId at mountBucket"))]].
Proof.
  apply (mountR2Storage_failure_report config
           (mockSandbox (Rejected (ErrorObj "InvalidAccessKeyId"
                                            (Some "Error: InvalidAccessKeyId at mountBucket")))
                        (Rejected (NonError "unused")))
           envKey123
           (ErrorObj "InvalidAccessKeyId"
                     (Some "Error: InvalidAccessKeyId at mountBucket"))
           "InvalidAccessKeyId").
  - reflexivity.
  - reflexivity.
  - reflexivity.
  - vm_compute. reflexivity.
Defined.

(** X7. Waiting is bounded: every sleep lasts 200 ms and the sleeps of a run
    add up to at most 2000 ms, for the probe alone and for a whole run of
    [mountR2Storage]. *)
Theorem sleep_budget cfg sandbox env :
  (forall ms, In ms (sleeps (snd (isR2Accessible cfg sandbox))) -> ms = 200) /\
  list_sum (sleeps (snd (isR2Accessible cfg sandbox))) <= 2000 /\
  (forall ms, In ms (sleeps (snd (mountR2Storage cfg sandbox env))) ->
              ms = 200) /\
  list_sum (sleeps (snd (mountR2Storage cfg sandbox env))) <= 2000.
Proof.
  destruct (isR2Accessible_summary cfg sandbox)
    as (_ & _ & (n & Hn & Hsl) & _).
  assert (Hprobe :
    (forall ms, In ms (sleeps (snd (isR2Accessible cfg sandbox))) -> ms = 200)
    /\ list_sum (sleeps (snd (isR2Accessible cfg sandbox))) <= 2000).
  { rewrite Hsl. split.
    - intros ms Hin. now apply repeat_spec in Hin.
    - rewrite list_sum_repeat. lia. }
  destruct Hprobe as [Hp1 Hp2]. split; [exact Hp1|]. split; [exact Hp2|].
  destruct (mountR2Storage_cases cfg sandbox env)
    as [(Hconf & l0 & ->)
       |[(Hconf & Hok & l1 & l2 & ->)
        |[(Hconf & err & msg & l1 & l2 & Hrej & Herr & Hmsg & ->)
         |[(Hconf & err & msg & l1 & Hrej & Herr & Hmsg & ->)
          |(Hconf & err & e & l1 & Hrej & Hnone & ->)]]]]; cbn [snd].
  - simpl. split; [tauto|lia].
  - simpl. split; [tauto|lia].
  - destruct (isR2Accessible_verdict cfg sandbox) as [Hv|Hv]; rewrite Hv;
      read_run; fold (sleeps (snd (isR2Accessible cfg sandbox)));
      rewrite app_nil_r; auto.
  - destruct (instanceofError err && truthy (stackOf err)); simpl;
      (split; [tauto|lia]).
  - simpl. split; [tauto|lia].
Qed.

Lemma sleep_budget_witness :
  list_sum (sleeps (snd (isR2Accessible config stuckSandbox))) = 2000 /\
  list_sum (sleeps (snd (isR2Accessible config stuckSandbox))) <= 2000.
Proof.
  split.
  - vm_compute. reflexivity.
  - apply (sleep_budget config stuckSandbox createMockEnvWithR2).
Defined.

(** ** Properties of [isR2Accessible] *)

Lemma slice0_length (n : nat) (s : string) :
  String.length (slice0 n s) = Nat.min n (String.length s).
Proof.
  unfold slice0. revert s.
  induction n as [|n IH]; intros s; destruct s as [|c s]; simpl; auto.
Qed.

Lemma slice0_prefix (n : nat) (s : string) : prefix (slice0 n s) s = true.
Proof.
  unfold slice0. revert s.
  induction n as [|n IH]; intros s; destruct s as [|c s]; simpl; auto.
  destruct (ascii_dec c c) as [_|Hne]; [apply IH | now elim Hne].
Qed.

(** X8. When the probe reaches its check line and the captured standard
    output is ASCII text, what it prints there is the output cut to its first
    100 characters: a prefix of the captured output, of length
    [min 100 (length stdout)].  (On ASCII text a byte is a UTF-16 code unit,
    so that the lengths are those JavaScript counts.) *)
Theorem isR2Accessible_prints_stdout_head cfg sandbox proc logs s :
  startProcess sandbox (probeCommand cfg) = Resolved proc ->
  getLogs proc = Resolved logs ->
  stdout logs = Some s ->
  isAscii s = true ->
  exists b h,
    consoleLines LvLog (snd (isR2Accessible cfg sandbox)) =
    [[AStr "isR2Accessible check:"; ABool b; AStr "stdout:"; AStr h]] /\
    fst (isR2Accessible cfg sandbox) = Resolved b /\
    prefix h s = true /\
    String.length h = Nat.min 100 (String.length s).
Proof.
  intros Hstart Hlogs Hout _.
  pose proof (isR2Accessible_run cfg sandbox) as Hrun.
  rewrite Hstart in Hrun. destruct Hrun as (n & _ & _ & _ & Heq).
  rewrite Hlogs in Heq. rewrite Heq.
  exists (accessibleFlag logs), (slice0 100 s). repeat split.
  - cbn [snd]. read_run. unfold stdoutHead. now rewrite Hout.
  - apply slice0_prefix.
  - apply slice0_length.
Qed.

Lemma isR2Accessible_prints_stdout_head_witness :
  String.length longOutput = 150 /\
  exists b h,
    consoleLines LvLog (snd (isR2Accessible config longOutputSandbox)) =
    [[AStr "isR2Accessible check:"; ABool b; AStr "stdout:"; AStr h]] /\
    fst (isR2Accessible config longOutputSandbox) = Resolved b /\
    prefix h longOutput = true /\
    String.length h = Nat.min 100 (String.length longOutput).
Proof.
  split; [reflexivity|].
  apply (isR2Accessible_prints_stdout_head config longOutputSandbox
           longOutputProcess longOutputLogs longOutput).
  - reflexivity.
  - reflexivity.
  - reflexivity.
  - vm_compute. reflexivity.
Defined.

Lemma poll_ext (p q : Process) (attempts : nat) :
  (forall k, attempts <= k < 10 -> status p k = status q k) ->
  poll p attempts = poll q attempts.
Proof.
  remember (10 - attempts) as fuel eqn:Hfuel.
  revert attempts Hfuel.
  induction fuel as [|fuel IH]; intros attempts Hfuel Hsame;
    rewrite (poll_step p), (poll_step q).
  - replace (attempts <? 10)%nat with false
      by (symmetry; apply Nat.ltb_ge; lia).
    now rewrite !andb_false_r.
  - rewrite (Hsame attempts) by lia.
    rewrite (IH (S attempts)); [reflexivity | lia |].
    intros k Hk. apply Hsame. lia.
Qed.

(** X9. Only the first ten reads of the process status matter to the probe:
    two sandboxes whose started processes agree on those reads and on the
    log retrieval give the same run, result and events alike. *)
Theorem isR2Accessible_status_window cfg sandbox1 sandbox2 p q :
  startProcess sandbox1 (probeCommand cfg) = Resolved p ->
  startProcess sandbox2 (probeCommand cfg) = Resolved q ->
  (forall k, k < 10 -> status p k = status q k) ->
  getLogs p = getLogs q ->
  isR2Accessible cfg sandbox1 = isR2Accessible cfg sandbox2.
Proof.
  intros Hp Hq Hsame Hlogs.
  unfold isR2Accessible, isR2Accessible_body.
  rewrite Hp, Hq. unfold call at 1 3. cbn [bind].
  rewrite (poll_ext p q 0) by (intros k Hk; apply Hsame; lia).
  now rewrite Hlogs.
Qed.

Lemma isR2Accessible_status_window_witness :
  isR2Accessible config
    (mockSandbox (Resolved tt)
       (Resolved {| status := fun k => if (k <? 10)%nat then "running"
                                       else "completed";
                    getLogs := getLogs stuckProcess |})) =
  isR2Accessible config stuckSandbox.
Proof.
  apply (isR2Accessible_status_window config _ stuckSandbox
           {| status := fun k => if (k <? 10)%nat then "running"
                                 else "completed";
              getLogs := getLogs stuckProcess |}
           stuckProcess).
  - reflexivity.
  - reflexivity.
  - intros k Hk. simpl.
    destruct (k <? 10)%nat eqn:Hlt; [reflexivity|].
    apply Nat.ltb_ge in Hlt. lia.
  - reflexivity.
Defined.

(** ** Properties of the test utilities *)

(** X10. The mock sandbox of test-utils.ts makes every configured
    environment mount: with [mounted] false the mount call succeeds, with
    [mounted] true it throws the conflict error, which [mountR2Storage]
    takes for an existing mount.  The probe against it resolves to
    [mounted], without any sleep. *)
Theorem createMockSandbox_mounts cfg env mounted :
  notConfigured env = false ->
  fst (mountR2Storage cfg (createMockSandbox mounted) env) = Resolved true /\
  fst (isR2Accessible cfg (createMockSandbox mounted)) = Resolved mounted /\
  sleeps (snd (mountR2Storage cfg (createMockSandbox mounted) env)) = [].
Proof.
  intros Hconf.
  assert (Hprobe :
    isR2Accessible cfg (createMockSandbox mounted) =
    (Resolved mounted,
     [EvStartProcess (probeCommand cfg); EvGetLogs;
      EvConsole LvLog [AStr "isR2Accessible check:"; ABool mounted;
                       AStr "stdout:";
                       AStr (if mounted then "accessible" else EmptyString)]])).
  { unfold isR2Accessible, isR2Accessible_body. cbn [createMockSandbox startProcess].
    unfold call at 1. cbn [bind].
    rewrite poll_step. cbn [createMockProcess status].
    destruct mounted; reflexivity. }
  split; [|split].
  - rewrite mountR2Storage_result, Hconf. destruct mounted; reflexivity.
  - now rewrite Hprobe.
  - rewrite (mountR2Storage_configured_run cfg _ env Hconf).
    destruct mounted; cbn [createMockSandbox mountBucket]; [|reflexivity].
    rewrite mountR2Storage_handler_run.
    unfold alreadyInUseError at 1. cbn [errorMessageOf].
    match goal with
    | |- context [includes ?m ?t] =>
        replace (includes m t) with true by (vm_compute; reflexivity)
    end.
    rewrite Hprobe. reflexivity.
Qed.

Lemma createMockSandbox_mounts_witness :
  fst (mountR2Storage config (createMockSandbox true) createMockEnvWithR2)
  = Resolved true /\
  fst (isR2Accessible config (createMockSandbox true)) = Resolved true /\
  sleeps (snd (mountR2Storage config (createMockSandbox true)
                              createMockEnvWithR2)) = [].
Proof.
  apply (createMockSandbox_mounts config createMockEnvWithR2 true).
  reflexivity.
Defined.

Lemma truthy_false (v : option string) :
  truthy v = false <-> v = None \/ v = Some EmptyString.
Proof.
  destruct v as [s|]; simpl.
  - destruct (s =? EmptyString)%string eqn:He; simpl.
    + apply String.eqb_eq in He. subst. split; auto.
    + apply String.eqb_neq in He. split; [discriminate|].
      intros [H|H]; [discriminate|]. inversion H. now elim He.
  - split; auto.
Qed.

(** X11. [createMockEnvWithR2(overrides)] passes the credential guard unless
    an override sets one of the three credentials to [undefined] or to the
    empty string; [createMockEnv(overrides)] passes it only when the
    overrides bring all three credentials.  Without overrides the two
    builders give the environments used in the tests. *)
Theorem createMockEnv_guard (overrides : EnvOverrides) :
  (notConfigured (createMockEnvWithR2' overrides) = true <->
   (exists v, ov_R2_ACCESS_KEY_ID overrides = Some v /\ truthy v = false) \/
   (exists v, ov_R2_SECRET_ACCESS_KEY overrides = Some v /\ truthy v = false) \/
   (exists v, ov_CF_ACCOUNT_ID overrides = Some v /\ truthy v = false)) /\
  (notConfigured (createMockEnv' overrides) = false <->
   exists key secret account,
     ov_R2_ACCESS_KEY_ID overrides = Some (Some key) /\ key <> EmptyString /\
     ov_R2_SECRET_ACCESS_KEY overrides = Some (Some secret) /\
     secret <> EmptyString /\
     ov_CF_ACCOUNT_ID overrides = Some (Some account) /\
     account <> EmptyString) /\
  createMockEnvWithR2' noOverrides = createMockEnvWithR2 /\
  createMockEnv' noOverrides = createMockEnv.
Proof.
  split; [|split; [|split; reflexivity]].
  - unfold notConfigured, createMockEnvWithR2', createMockEnv', spread.
    cbn [R2_ACCESS_KEY_ID R2_SECRET_ACCESS_KEY CF_ACCOUNT_ID
         ov_R2_ACCESS_KEY_ID ov_R2_SECRET_ACCESS_KEY ov_CF_ACCOUNT_ID].
    destruct (ov_R2_ACCESS_KEY_ID overrides) as [a|],
             (ov_R2_SECRET_ACCESS_KEY overrides) as [b|],
             (ov_CF_ACCOUNT_ID overrides) as [c|];
      cbn [spreadKey readKey];
      repeat match goal with
             | |- context [truthy ?v] =>
                 lazymatch v with
                 | Some (String _ _) => change (truthy v) with true
                 | _ => destruct (truthy v) eqn:?
                 end
             end;
      cbn [negb orb];
      (split;
       [ intros H; try discriminate H; eauto 6
       | intros [(v & Hv & Ht)|[(v & Hv & Ht)|(v & Hv & Ht)]];
         try discriminate Hv; try (injection Hv as <-; congruence);
         reflexivity ]).
  - rewrite notConfigured_false_iff.
    unfold createMockEnv'.
    cbn [R2_ACCESS_KEY_ID R2_SECRET_ACCESS_KEY CF_ACCOUNT_ID].
    split; intros (key & secret & account & Hk & Hk' & Hs & Hs' & Ha & Ha');
      exists key, secret, account.
    + destruct (ov_R2_ACCESS_KEY_ID overrides) as [a|]; [|discriminate].
      destruct (ov_R2_SECRET_ACCESS_KEY overrides) as [b|]; [|discriminate].
      destruct (ov_CF_ACCOUNT_ID overrides) as [c|]; [|discriminate].
      simpl in Hk, Hs, Ha. subst. auto 10.
    + rewrite Hk, Hs, Ha. simpl. auto 10.
Qed.

Lemma createMockEnv_guard_witness :
  notConfigured
    (createMockEnvWithR2'
       {| ov_R2_ACCESS_KEY_ID := None;
          ov_R2_SECRET_ACCESS_KEY := Some (Some EmptyString);
          ov_CF_ACCOUNT_ID := None;
          ov_R2_BUCKET_NAME := None |}) = true /\
  notConfigured
    (createMockEnv'
       {| ov_R2_ACCESS_KEY_ID := Some (Some "key123");
          ov_R2_SECRET_ACCESS_KEY := Some (Some "secret");
          ov_CF_ACCOUNT_ID := Some (Some "account123");
          ov_R2_BUCKET_NAME := None |}) = false.
Proof.
  split.
  - apply (proj1 (createMockEnv_guard _)).
    right. left. exists (Some EmptyString). split; reflexivity.
  - apply (proj1 (proj2 (createMockEnv_guard _))).
    exists "key123", "secret", "account123".
    repeat split; discriminate.
Defined.
